(** * AutoTagger: a shallow embedding of [autotagger.py]

    The program is a desktop editor for the ID3 tags of MP3 files.  Its logic
    lives in the methods of the class [AutoTagger]: [load_tags] (read),
    [_save_single_file] and [save_tags] (write, single file or batch),
    [parse_filename], [auto_fetch_info] and [fetch_album_art] (remote
    lookups).  Each method is embedded below as a function over an explicit
    state: the fields of the window object together with the outside world
    (files, directory listings, network answers, the message boxes shown).

    Python [str] values are modelled as [string], a sequence of code points
    below 256; on that range the character classes used by the program
    ([\d], [str.isspace], [str.lower]) are written out in full.  Paths
    follow [posixpath].  Decoded JSON numbers are kept as integers. *)

From Stdlib Require Import ZArith Ascii String List Bool Lia DecimalString.
From stdpp Require Import base option list gmap strings.

Local Open Scope Z_scope.

(** ** Python strings *)

Module Py.

Abbreviation str := string (only parsing).
Abbreviation bytes := (list Byte.byte) (only parsing).

Definition code (c : ascii) : Z := Z.of_N (N_of_ascii c).

Definition chr (z : Z) : ascii := ascii_of_N (Z.to_N z).

(** [len(s)] *)
Fixpoint len (s : string) : nat :=
  match s with
  | EmptyString => O
  | String _ s' => S (len s')
  end.

(** [s[n:]] and [s[:n]] for a non-negative [n] *)
Fixpoint drop_str (n : nat) (s : string) : string :=
  match n, s with
  | O, _ => s
  | S n', String _ s' => drop_str n' s'
  | S _, EmptyString => EmptyString
  end.

Fixpoint take_str (n : nat) (s : string) : string :=
  match n, s with
  | O, _ => EmptyString
  | S n', String c s' => String c (take_str n' s')
  | S _, EmptyString => EmptyString
  end.

(** [s[i:j]] for [0 <= i], [0 <= j] *)
Definition slice (i j : Z) (s : string) : string :=
  take_str (Z.to_nat (j - i)) (drop_str (Z.to_nat i) s).

(** [s.startswith(p)] *)
Fixpoint startswith (p s : string) : bool :=
  match p, s with
  | EmptyString, _ => true
  | String a p', String b s' => if decide (a = b) then startswith p' s' else false
  | String _ _, EmptyString => false
  end.

(** [s.endswith(p)] *)
Definition endswith (p s : string) : bool :=
  startswith (String.rev p) (String.rev s).

(** [sub in s] *)
Fixpoint contains (sub s : string) : bool :=
  if startswith sub s then true
  else match s with
       | EmptyString => false
       | String _ s' => contains sub s'
       end.

(** [s.rfind(c)] for a one-character [c]: the index of the last
    occurrence, [-1] when there is none. *)
Fixpoint rfind (c : ascii) (s : string) : Z :=
  match s with
  | EmptyString => -1
  | String a s' =>
      let r := rfind c s' in
      if 0 <=? r then r + 1
      else if decide (a = c) then 0 else -1
  end.

(** [s.split(sep, 1)] for a non-empty [sep]: at most one split, at the
    first occurrence of [sep]. *)
Fixpoint partition_first (sep s : string) : option (string * string) :=
  if startswith sep s then Some (EmptyString, drop_str (len sep) s)
  else match s with
       | EmptyString => None
       | String c s' =>
           match partition_first sep s' with
           | Some (l, r) => Some (String c l, r)
           | None => None
           end
       end.

Definition split1 (sep s : string) : list string :=
  match partition_first sep s with
  | Some (l, r) => [l; r]
  | None => [s]
  end.

(** [str.isspace] on one character (code points below 256). *)
Definition isspace (c : ascii) : bool :=
  let n := code c in
  ((9 <=? n) && (n <=? 13)) || ((28 <=? n) && (n <=? 32))
  || (n =? 133) || (n =? 160).

Fixpoint lstrip (s : string) : string :=
  match s with
  | EmptyString => EmptyString
  | String c s' => if isspace c then lstrip s' else s
  end.

Definition rstrip (s : string) : string :=
  String.rev (lstrip (String.rev s)).

(** [s.strip()] *)
Definition strip (s : string) : string := rstrip (lstrip s).

(** [str.lower] on one character (code points below 256): the ASCII
    capitals and the Latin-1 capitals other than the multiplication sign. *)
Definition lower_char (c : ascii) : ascii :=
  let n := code c in
  if ((65 <=? n) && (n <=? 90))
     || ((192 <=? n) && (n <=? 222) && negb (n =? 215))
  then chr (n + 32) else c.

Fixpoint lower (s : string) : string :=
  match s with
  | EmptyString => EmptyString
  | String c s' => String (lower_char c) (lower s')
  end.

(** The class [\d] of the [re] module on code points below 256. *)
Definition isdigit (c : ascii) : bool :=
  let n := code c in (48 <=? n) && (n <=? 57).

(** Truth value of a string: [bool(s)]. *)
Definition truthy_str (s : string) : bool :=
  match s with EmptyString => false | _ => true end.

(** [a or b] on strings *)
Definition or_str (a b : string) : string := if truthy_str a then a else b.

End Py.

(** ** Exceptions and results *)

Inductive exn_class :=
| ID3NoHeaderError
| MutagenError
| OSError
| AttributeError
| KeyError
| IndexError
| TypeError
| ValueError
| RequestException
| JSONDecodeError.

#[global] Instance exn_class_eq_dec : EqDecision exn_class.
Proof. solve_decision. Defined.

(** A raised exception: its class and its [str(e)]. *)
Record exn := Exn { exn_cls : exn_class; exn_msg : string }.

Inductive result (A : Type) :=
| Ok (a : A)
| Raise (e : exn).
Arguments Ok {A} a.
Arguments Raise {A} e.

(** ** [re.match(r'^(\d{4})', s)] *)

Module Re.

(** Consume [n] characters of class [\d] at the start of [s]; the text
    consumed is the group. *)
Fixpoint digits (n : nat) (s : string) : option string :=
  match n with
  | O => Some EmptyString
  | S n' =>
      match s with
      | String c s' =>
          if Py.isdigit c then String c <$> digits n' s' else None
      | EmptyString => None
      end
  end.

(** [m = re.match(r'^(\d{4})', s)]; [Some g] is a match with
    [m.group(1) = g], [None] is no match. *)
Definition match_year (s : string) : option string := digits 4 s.

End Re.

(** ** [os.path] (POSIX flavour) *)

Module OsPath.

(** [os.path.basename(p)]: [p[p.rfind('/') + 1:]] *)
Definition basename (p : string) : string :=
  Py.drop_str (Z.to_nat (Py.rfind "/" p + 1)) p.

Fixpoint all_dots (s : string) : bool :=
  match s with
  | EmptyString => true
  | String c s' => if decide (c = "."%char) then all_dots s' else false
  end.

(** [os.path.splitext(p)]: split at the last dot of the last component,
    unless that component consists of leading dots up to it. *)
Definition splitext (p : string) : string * string :=
  let sepIndex := Py.rfind "/" p in
  let dotIndex := Py.rfind "." p in
  if sepIndex <? dotIndex then
    if all_dots (Py.slice (sepIndex + 1) dotIndex p) then (p, EmptyString)
    else (Py.take_str (Z.to_nat dotIndex) p, Py.drop_str (Z.to_nat dotIndex) p)
  else (p, EmptyString).

(** [os.path.join(a, b)] *)
Definition join (a b : string) : string :=
  if Py.startswith "/" b then b
  else if negb (Py.truthy_str a) || Py.endswith "/" a then a +:+ b
  else a +:+ "/" +:+ b.

End OsPath.

(** ** [AutoTagger.parse_filename] *)

(** [parts[i]] on the list returned by [split]. *)
Definition item {A} (l : list A) (i : nat) : result A :=
  match l !! i with
  | Some x => Ok x
  | None => Raise (Exn IndexError "list index out of range")
  end.

(** [os.path.splitext(os.path.basename(filepath))[0]] *)
Definition stem (filepath : string) : string :=
  fst (OsPath.splitext (OsPath.basename filepath)).

Definition parse_filename (filepath : string) : result (string * string) :=
  let basename := stem filepath in
  if Py.contains " - " basename then
    let parts := Py.split1 " - " basename in
    match item parts 0, item parts 1 with
    | Ok p0, Ok p1 => Ok (Py.strip p0, Py.strip p1)
    | Raise e, _ => Raise e
    | _, Raise e => Raise e
    end
  else Ok (EmptyString, basename).


(** ** The tag library (mutagen), as the program uses it

    The library is not part of the repository.  It is modelled at the level
    of its frame dictionary: an [ID3] container maps the hash key of a frame
    to the frame; a text frame hashes to its frame id, a picture frame to
    ["APIC:"] followed by its description.  The text of a [TDRC] frame is
    kept as a time stamp, which renders itself canonically.  Serialisation
    is idealised: a container that is saved is read back as it was saved
    (text values are taken to be free of the NUL separator). *)

Module Mutagen.

(** *** [ID3TimeStamp] *)

Record ID3TimeStamp := {
  year : option N; month : option N; day : option N;
  hour : option N; minute : option N; second : option N }.

Definition is_stamp_sep (c : ascii) : bool :=
  Py.contains (String c EmptyString) "-T:/.".

(** [re.compile('[-T:/.]|\s+').split(s)]; [cur] is the piece being read,
    reversed, and [ws] tells that a run of white space is being skipped. *)
Fixpoint stamp_split (ws : bool) (cur : string) (s : string) : list string :=
  match s with
  | EmptyString => [String.rev cur]
  | String c s' =>
      if is_stamp_sep c then String.rev cur :: stamp_split false EmptyString s'
      else if Py.isspace c then
        if ws then stamp_split true cur s'
        else String.rev cur :: stamp_split true EmptyString s'
      else stamp_split false (String c cur) s'
  end.

(** Digits with single underscores between them, read as a number;
    [prev] tells that the previous character was a digit. *)
Fixpoint int_digits (prev : bool) (acc : N) (s : string) : option N :=
  match s with
  | EmptyString => if prev then Some acc else None
  | String c s' =>
      if Py.isdigit c then
        int_digits true (10 * acc + Z.to_N (Py.code c - 48))%N s'
      else if decide (c = "_"%char) then
        if prev then int_digits false acc s' else None
      else None
  end.

(** [int(s)] for a piece of [stamp_split], which holds neither white space
    nor a minus sign; [None] is [ValueError]. *)
Definition int (s : string) : option N :=
  match s with
  | String "+" s' => int_digits false 0%N s'
  | _ => int_digits false 0%N s
  end.

(** [ID3TimeStamp(text)], that is [set_text]. *)
Definition stamp_of_text (text : string) : ID3TimeStamp :=
  let p := stamp_split false EmptyString (text +:+ ":::::") in
  let field i := int (nth i p EmptyString) in
  {| year := field 0%nat; month := field 1%nat; day := field 2%nat;
     hour := field 3%nat; minute := field 4%nat; second := field 5%nat |}.

Definition decimal (n : N) : string :=
  DecimalString.NilZero.string_of_uint (N.to_uint n).

Fixpoint zeros (n : nat) : string :=
  match n with O => EmptyString | S n' => String "0" (zeros n') end.

(** ['%0wd' % n] *)
Definition zero_pad (w : nat) (n : N) : string :=
  let d := decimal n in zeros (w - Py.len d) +:+ d.

Fixpoint stamp_pieces (parts : list (option N * nat * string)) : string :=
  match parts with
  | (Some v, w, sep) :: rest => zero_pad w v +:+ sep +:+ stamp_pieces rest
  | _ => EmptyString
  end.

(** [stamp.text], that is [get_text]: the fields up to the first missing
    one, each followed by its separator, without the last character. *)
Definition stamp_text (t : ID3TimeStamp) : string :=
  let s := stamp_pieces
             [(year t, 4%nat, "-"); (month t, 2%nat, "-"); (day t, 2%nat, " ");
              (hour t, 2%nat, ":"); (minute t, 2%nat, ":"); (second t, 2%nat, "x")] in
  Py.take_str (Py.len s - 1) s.

(** *** Frames *)

Inductive frame :=
| TextFrame (FrameID : string) (encoding : Z) (text : list string)
| TimeStampTextFrame (FrameID : string) (encoding : Z) (text : list ID3TimeStamp)
| APIC (encoding : Z) (mime : string) (type : Z) (desc : string)
       (data : list Byte.byte)
| OtherFrame (key : string) (data : list Byte.byte).

Definition TPE1 (encoding : Z) (text : string) := TextFrame "TPE1" encoding [text].
Definition TALB (encoding : Z) (text : string) := TextFrame "TALB" encoding [text].
Definition TIT2 (encoding : Z) (text : string) := TextFrame "TIT2" encoding [text].
Definition TRCK (encoding : Z) (text : string) := TextFrame "TRCK" encoding [text].
Definition TCON (encoding : Z) (text : string) := TextFrame "TCON" encoding [text].
Definition TDRC (encoding : Z) (text : string) :=
  TimeStampTextFrame "TDRC" encoding [stamp_of_text text].

Definition HashKey (f : frame) : string :=
  match f with
  | TextFrame id _ _ => id
  | TimeStampTextFrame id _ _ => id
  | APIC _ _ _ desc _ => "APIC:" +:+ desc
  | OtherFrame key _ => key
  end.

(** *** The container *)

Abbreviation ID3 := (gmap string frame).

(** [tags.add(frame)] *)
Definition add (f : frame) (tags : ID3) : ID3 := <[HashKey f := f]> tags.

(** [tags.delall(key)]: the frame stored under [key] itself when there is
    one, otherwise every frame whose hash key starts with [key + ":"]. *)
Definition delall (key : string) (tags : ID3) : ID3 :=
  match tags !! key with
  | Some _ => delete key tags
  | None => filter (fun kf => Py.startswith (key +:+ ":") kf.1 = false) tags
  end.

End Mutagen.


(** ** JSON values, with the Python operations the program applies to them *)

#[local] Set Warnings "-register-all".

Inductive json :=
| JNull
| JBool (b : bool)
| JNum (z : Z)
| JStr (s : string)
| JArr (l : list json)
| JObj (l : list (string * json)).

Module PyVal.

(** [bool(v)] *)
Definition truthy (v : json) : bool :=
  match v with
  | JNull => false
  | JBool b => b
  | JNum z => negb (z =? 0)
  | JStr s => Py.truthy_str s
  | JArr l => match l with [] => false | _ => true end
  | JObj l => match l with [] => false | _ => true end
  end.

(** Lookup in a decoded object: of two members with one name the decoder
    keeps the later. *)
Fixpoint lookup (k : string) (l : list (string * json)) : option json :=
  match l with
  | [] => None
  | (k', v) :: rest =>
      match lookup k rest with
      | Some v' => Some v'
      | None => if decide (k' = k) then Some v else None
      end
  end.

Definition no_attribute (a : string) : exn :=
  Exn AttributeError ("object has no attribute '" +:+ a +:+ "'").

(** [v.get(k)]; [None] of Python is [JNull]. *)
Definition get (v : json) (k : string) : result json :=
  match v with
  | JObj l => Ok (default JNull (lookup k l))
  | _ => Raise (no_attribute "get")
  end.

(** [v.get(k, d)] *)
Definition get_default (v : json) (k : string) (d : json) : result json :=
  match v with
  | JObj l => Ok (default d (lookup k l))
  | _ => Raise (no_attribute "get")
  end.

(** [v[k]] for a string [k] *)
Definition getitem (v : json) (k : string) : result json :=
  match v with
  | JObj l =>
      match lookup k l with
      | Some x => Ok x
      | None => Raise (Exn KeyError k)
      end
  | _ => Raise (Exn TypeError "indices must be integers or object is not subscriptable")
  end.

(** [v[0]] *)
Definition getitem0 (v : json) : result json :=
  match v with
  | JArr (x :: _) => Ok x
  | JArr [] => Raise (Exn IndexError "list index out of range")
  | JStr (String c _) => Ok (JStr (String c EmptyString))
  | JStr EmptyString => Raise (Exn IndexError "string index out of range")
  | JObj _ => Raise (Exn KeyError "0")
  | _ => Raise (Exn TypeError "object is not subscriptable")
  end.

Definition is_str (k : string) (v : json) : bool :=
  match v with JStr s => bool_decide (s = k) | _ => false end.

(** [k in v] for a string [k] *)
Definition contains (k : string) (v : json) : result bool :=
  match v with
  | JObj l => Ok (bool_decide (is_Some (lookup k l)))
  | JArr l => Ok (existsb (is_str k) l)
  | JStr s => Ok (Py.contains k s)
  | _ => Raise (Exn TypeError "argument is not iterable")
  end.

End PyVal.

(** ** The window object and the outside world *)

Inductive icon := Critical | Warning | Information.

(** One [QMessageBox] shown to the user. *)
Record dialog := Dialog { dlg_icon : icon; dlg_title : string; dlg_text : string }.

(** The text of the status label; the embedded count of the batch message
    is kept as a number. *)
Inductive status :=
| StatusReady
| StatusLoaded (name : string)
| StatusFolder (name : string)
| StatusAutoFetched
| StatusArtFetched
| StatusTagsSaved
| StatusSavedFiles (n : nat).

(** The cover label: its placeholder text, or a pixmap made from image data. *)
Inductive art :=
| NoAlbumArt
| Pixmap (data : list Byte.byte).

Record AutoTagger := {
  current_file : option string;
  current_folder : option string;
  album_art_pixmap : option (list Byte.byte);
  album_art_bytes : option (list Byte.byte);
  id3_version : Z;
  artist_edit : string;
  album_edit : string;
  title_edit : string;
  year_edit : string;
  track_edit : string;
  genre_edit : string;
  btn_auto_fetch : bool;
  art_label : art;
  status_label : status }.

(** A file on disk, as the tag library sees it: one it cannot open, or an
    MPEG file with or without an ID3 header.  [lock] is the error a save
    meets (file locked, disk full) and [saved] the [v1] and [v2_version]
    arguments of the last save. *)
Inductive file :=
| Corrupt (e : exn)
| Audio (tags : option Mutagen.ID3) (lock : option exn) (saved : option (Z * Z)).

(** The three addresses the program requests, with the values it puts in:
    [.../ws/2/recording/?query=<quote(query)>&fmt=json&limit=1],
    [.../ws/2/release/?query=<quote(query)>&fmt=json&limit=1] and
    [https://coverartarchive.org/release/<mbid>/front]. *)
Inductive url :=
| RecordingSearch (query : string)
| ReleaseSearch (query : string)
| CoverArtFront (mbid : json).

Record response := {
  status_code : Z;
  content : list Byte.byte;
  (** what [resp.json()] returns or raises *)
  decoded : result json }.

Inductive http_result :=
| Fails (e : exn)
| Responds (r : response).

Inductive printed := SkipLine (filepath : string) (msg : string).

Record World := {
  fs : gmap string file;
  dirs : gmap string (list string);
  (** the answers the network will give, in order *)
  net : list http_result;
  (** the requests made so far, latest first *)
  requests : list url;
  (** the message boxes shown so far, latest first *)
  dialogs : list dialog;
  stdout : list printed }.

Definition St : Type := AutoTagger * World.

(** Computations of the program: they read and change the state and end
    with a value or a raised exception. *)
Definition M (A : Type) : Type := St -> result A * St.

Definition ret {A} (a : A) : M A := fun st => (Ok a, st).

Definition bind {A B} (m : M A) (k : A -> M B) : M B :=
  fun st =>
    match m st with
    | (Ok a, st') => k a st'
    | (Raise e, st') => (Raise e, st')
    end.

Definition raise {A} (e : exn) : M A := fun st => (Raise e, st).

Definition lift {A} (r : result A) : M A := fun st => (r, st).

(** [try: m except Exception as e: h e] *)
Definition try_except {A} (m : M A) (h : exn -> M A) : M A :=
  fun st =>
    match m st with
    | (Ok a, st') => (Ok a, st')
    | (Raise e, st') => h e st'
    end.

(** [try: m except cls: h] *)
Definition try_except_cls {A} (cls : exn_class) (m : M A) (h : M A) : M A :=
  try_except m (fun e => if decide (exn_cls e = cls) then h else raise e).

Notation "x <- m ;; k" := (bind m (fun x => k))
  (at level 90, m at next level, right associativity).
Notation "m ;;; k" := (bind m (fun _ => k))
  (at level 90, right associativity).

Definition self : M AutoTagger := fun st => (Ok st.1, st).
Definition world : M World := fun st => (Ok st.2, st).
Definition modify_self (f : AutoTagger -> AutoTagger) : M unit :=
  fun st => (Ok tt, (f st.1, st.2)).
Definition modify_world (f : World -> World) : M unit :=
  fun st => (Ok tt, (st.1, f st.2)).

(** [for x in l: body x] *)
Fixpoint for_each {A} (l : list A) (body : A -> M unit) : M unit :=
  match l with
  | [] => ret tt
  | x :: rest => body x ;;; for_each rest body
  end.

(** Assignment to one attribute of the window object, or to one component
    of the world. *)

Definition set_current_file (v : option string) (a : AutoTagger) : AutoTagger :=
  {| current_file := v; current_folder := current_folder a;
     album_art_pixmap := album_art_pixmap a;
     album_art_bytes := album_art_bytes a; id3_version := id3_version a;
     artist_edit := artist_edit a; album_edit := album_edit a;
     title_edit := title_edit a; year_edit := year_edit a;
     track_edit := track_edit a; genre_edit := genre_edit a;
     btn_auto_fetch := btn_auto_fetch a; art_label := art_label a;
     status_label := status_label a |}.
Definition set_current_folder (v : option string) (a : AutoTagger) : AutoTagger :=
  {| current_file := current_file a; current_folder := v;
     album_art_pixmap := album_art_pixmap a;
     album_art_bytes := album_art_bytes a; id3_version := id3_version a;
     artist_edit := artist_edit a; album_edit := album_edit a;
     title_edit := title_edit a; year_edit := year_edit a;
     track_edit := track_edit a; genre_edit := genre_edit a;
     btn_auto_fetch := btn_auto_fetch a; art_label := art_label a;
     status_label := status_label a |}.
Definition set_album_art_pixmap (v : option (list Byte.byte)) (a : AutoTagger) : AutoTagger :=
  {| current_file := current_file a; current_folder := current_folder a;
     album_art_pixmap := v; album_art_bytes := album_art_bytes a;
     id3_version := id3_version a; artist_edit := artist_edit a;
     album_edit := album_edit a; title_edit := title_edit a;
     year_edit := year_edit a; track_edit := track_edit a;
     genre_edit := genre_edit a; btn_auto_fetch := btn_auto_fetch a;
     art_label := art_label a; status_label := status_label a |}.
Definition set_album_art_bytes (v : option (list Byte.byte)) (a : AutoTagger) : AutoTagger :=
  {| current_file := current_file a; current_folder := current_folder a;
     album_art_pixmap := album_art_pixmap a; album_art_bytes := v;
     id3_version := id3_version a; artist_edit := artist_edit a;
     album_edit := album_edit a; title_edit := title_edit a;
     year_edit := year_edit a; track_edit := track_edit a;
     genre_edit := genre_edit a; btn_auto_fetch := btn_auto_fetch a;
     art_label := art_label a; status_label := status_label a |}.
Definition set_id3_version (v : Z) (a : AutoTagger) : AutoTagger :=
  {| current_file := current_file a; current_folder := current_folder a;
     album_art_pixmap := album_art_pixmap a;
     album_art_bytes := album_art_bytes a; id3_version := v;
     artist_edit := artist_edit a; album_edit := album_edit a;
     title_edit := title_edit a; year_edit := year_edit a;
     track_edit := track_edit a; genre_edit := genre_edit a;
     btn_auto_fetch := btn_auto_fetch a; art_label := art_label a;
     status_label := status_label a |}.
Definition set_artist_edit (v : string) (a : AutoTagger) : AutoTagger :=
  {| current_file := current_file a; current_folder := current_folder a;
     album_art_pixmap := album_art_pixmap a;
     album_art_bytes := album_art_bytes a; id3_version := id3_version a;
     artist_edit := v; album_edit := album_edit a;
     title_edit := title_edit a; year_edit := year_edit a;
     track_edit := track_edit a; genre_edit := genre_edit a;
     btn_auto_fetch := btn_auto_fetch a; art_label := art_label a;
     status_label := status_label a |}.
Definition set_album_edit (v : string) (a : AutoTagger) : AutoTagger :=
  {| current_file := current_file a; current_folder := current_folder a;
     album_art_pixmap := album_art_pixmap a;
     album_art_bytes := album_art_bytes a; id3_version := id3_version a;
     artist_edit := artist_edit a; album_edit := v;
     title_edit := title_edit a; year_edit := year_edit a;
     track_edit := track_edit a; genre_edit := genre_edit a;
     btn_auto_fetch := btn_auto_fetch a; art_label := art_label a;
     status_label := status_label a |}.
Definition set_title_edit (v : string) (a : AutoTagger) : AutoTagger :=
  {| current_file := current_file a; current_folder := current_folder a;
     album_art_pixmap := album_art_pixmap a;
     album_art_bytes := album_art_bytes a; id3_version := id3_version a;
     artist_edit := artist_edit a; album_edit := album_edit a;
     title_edit := v; year_edit := year_edit a; track_edit := track_edit a;
     genre_edit := genre_edit a; btn_auto_fetch := btn_auto_fetch a;
     art_label := art_label a; status_label := status_label a |}.
Definition set_year_edit (v : string) (a : AutoTagger) : AutoTagger :=
  {| current_file := current_file a; current_folder := current_folder a;
     album_art_pixmap := album_art_pixmap a;
     album_art_bytes := album_art_bytes a; id3_version := id3_version a;
     artist_edit := artist_edit a; album_edit := album_edit a;
     title_edit := title_edit a; year_edit := v; track_edit := track_edit a;
     genre_edit := genre_edit a; btn_auto_fetch := btn_auto_fetch a;
     art_label := art_label a; status_label := status_label a |}.
Definition set_track_edit (v : string) (a : AutoTagger) : AutoTagger :=
  {| current_file := current_file a; current_folder := current_folder a;
     album_art_pixmap := album_art_pixmap a;
     album_art_bytes := album_art_bytes a; id3_version := id3_version a;
     artist_edit := artist_edit a; album_edit := album_edit a;
     title_edit := title_edit a; year_edit := year_edit a; track_edit := v;
     genre_edit := genre_edit a; btn_auto_fetch := btn_auto_fetch a;
     art_label := art_label a; status_label := status_label a |}.
Definition set_genre_edit (v : string) (a : AutoTagger) : AutoTagger :=
  {| current_file := current_file a; current_folder := current_folder a;
     album_art_pixmap := album_art_pixmap a;
     album_art_bytes := album_art_bytes a; id3_version := id3_version a;
     artist_edit := artist_edit a; album_edit := album_edit a;
     title_edit := title_edit a; year_edit := year_edit a;
     track_edit := track_edit a; genre_edit := v;
     btn_auto_fetch := btn_auto_fetch a; art_label := art_label a;
     status_label := status_label a |}.
Definition set_btn_auto_fetch (v : bool) (a : AutoTagger) : AutoTagger :=
  {| current_file := current_file a; current_folder := current_folder a;
     album_art_pixmap := album_art_pixmap a;
     album_art_bytes := album_art_bytes a; id3_version := id3_version a;
     artist_edit := artist_edit a; album_edit := album_edit a;
     title_edit := title_edit a; year_edit := year_edit a;
     track_edit := track_edit a; genre_edit := genre_edit a;
     btn_auto_fetch := v; art_label := art_label a;
     status_label := status_label a |}.
Definition set_art_label (v : art) (a : AutoTagger) : AutoTagger :=
  {| current_file := current_file a; current_folder := current_folder a;
     album_art_pixmap := album_art_pixmap a;
     album_art_bytes := album_art_bytes a; id3_version := id3_version a;
     artist_edit := artist_edit a; album_edit := album_edit a;
     title_edit := title_edit a; year_edit := year_edit a;
     track_edit := track_edit a; genre_edit := genre_edit a;
     btn_auto_fetch := btn_auto_fetch a; art_label := v;
     status_label := status_label a |}.
Definition set_status_label (v : status) (a : AutoTagger) : AutoTagger :=
  {| current_file := current_file a; current_folder := current_folder a;
     album_art_pixmap := album_art_pixmap a;
     album_art_bytes := album_art_bytes a; id3_version := id3_version a;
     artist_edit := artist_edit a; album_edit := album_edit a;
     title_edit := title_edit a; year_edit := year_edit a;
     track_edit := track_edit a; genre_edit := genre_edit a;
     btn_auto_fetch := btn_auto_fetch a; art_label := art_label a;
     status_label := v |}.

Definition set_fs (v : gmap string file) (w : World) : World :=
  {| fs := v; dirs := dirs w; net := net w; requests := requests w;
     dialogs := dialogs w; stdout := stdout w |}.
Definition set_dirs (v : gmap string (list string)) (w : World) : World :=
  {| fs := fs w; dirs := v; net := net w; requests := requests w;
     dialogs := dialogs w; stdout := stdout w |}.
Definition set_net (v : list http_result) (w : World) : World :=
  {| fs := fs w; dirs := dirs w; net := v; requests := requests w;
     dialogs := dialogs w; stdout := stdout w |}.
Definition set_requests (v : list url) (w : World) : World :=
  {| fs := fs w; dirs := dirs w; net := net w; requests := v;
     dialogs := dialogs w; stdout := stdout w |}.
Definition set_dialogs (v : list dialog) (w : World) : World :=
  {| fs := fs w; dirs := dirs w; net := net w; requests := requests w;
     dialogs := v; stdout := stdout w |}.
Definition set_stdout (v : list printed) (w : World) : World :=
  {| fs := fs w; dirs := dirs w; net := net w; requests := requests w;
     dialogs := dialogs w; stdout := v |}.

(** ** Helpers shared by the methods *)

Definition nl : string := String "010"%char EmptyString.
Definition dq : string := String "034"%char EmptyString.

(** Truth value of an attribute that is [None] or a string, and of one that
    is [None] or a byte string. *)
Definition truthy_path (o : option string) : bool :=
  match o with Some s => Py.truthy_str s | None => false end.

Definition truthy_bytes (o : option (list Byte.byte)) : bool :=
  match o with Some (_ :: _) => true | _ => false end.

(** [QMessageBox.critical], [.warning] and [.information] *)
Definition message_box (i : icon) (title text : string) : M unit :=
  modify_world (fun w => set_dialogs (Dialog i title text :: dialogs w) w).

Definition print (p : printed) : M unit :=
  modify_world (fun w => set_stdout (p :: stdout w) w).

(** [widget.setText(v)]: the toolkit accepts a [str] only. *)
Definition setText (set : string -> AutoTagger -> AutoTagger) (v : json) : M unit :=
  match v with
  | JStr s => modify_self (set s)
  | _ => raise (Exn TypeError "setText(self, str): argument 1 has unexpected type")
  end.

(** [requests.get(url, timeout=10)] *)
Definition requests_get (u : url) : M response :=
  modify_world (fun w => set_requests (u :: requests w) w) ;;;
  w <- world ;;
  match net w with
  | [] => raise (Exn RequestException "connection failed")
  | Fails e :: rest => modify_world (set_net rest) ;;; raise e
  | Responds r :: rest => modify_world (set_net rest) ;;; ret r
  end.

(** [os.listdir(folder)] *)
Definition listdir (folder : string) : M (list string) :=
  w <- world ;;
  match dirs w !! folder with
  | Some names => ret names
  | None => raise (Exn OSError "[Errno 2] No such file or directory")
  end.

(** *** The audio object [MP3(path, ID3=ID3)] *)

Record audio := { filename : string; tags : option Mutagen.ID3 }.

(** Opening a file: a file without an ID3 header opens with [tags = None]
    (the library catches its own [ID3NoHeaderError]). *)
Definition MP3 (path : string) : M audio :=
  w <- world ;;
  match fs w !! path with
  | None => raise (Exn MutagenError "[Errno 2] No such file or directory")
  | Some (Corrupt e) => raise e
  | Some (Audio t _ _) => ret {| filename := path; tags := t |}
  end.

(** [audio.add_tags(ID3=ID3)] *)
Definition add_tags (a : audio) : M audio :=
  match tags a with
  | None => ret {| filename := filename a; tags := Some ∅ |}
  | Some _ => raise (Exn MutagenError "an ID3 tag already exists")
  end.

(** [audio.get(key)] and [key in audio] *)
Definition audio_get (a : audio) (key : string) : option Mutagen.frame :=
  match tags a with
  | Some t => t !! key
  | None => None
  end.

(** [audio.tags.<method>]: [audio.tags] must not be [None]. *)
Definition audio_tags (a : audio) : result Mutagen.ID3 :=
  match tags a with
  | Some t => Ok t
  | None => Raise (PyVal.no_attribute "delall")
  end.

(** [audio.save(v1=v1, v2_version=v2_version)] *)
Definition save (a : audio) (v1 v2_version : Z) : M unit :=
  w <- world ;;
  match fs w !! filename a with
  | None => raise (Exn MutagenError "[Errno 2] No such file or directory")
  | Some (Corrupt e) => raise e
  | Some (Audio _ (Some e) _) => raise e
  | Some (Audio _ None _) =>
      if (v2_version =? 3) || (v2_version =? 4) then
        modify_world
          (set_fs (<[filename a := Audio (tags a) None (Some (v1, v2_version))]> (fs w)))
      else raise (Exn ValueError "Only 3 or 4 allowed for v2_version")
  end.

(** A value of a frame's [text] list: a string, or a time stamp. *)
Inductive value :=
| VStr (s : string)
| VStamp (t : Mutagen.ID3TimeStamp).

(** [frame.text] and [frame.data] *)
Definition frame_text (f : Mutagen.frame) : result (list value) :=
  match f with
  | Mutagen.TextFrame _ _ text => Ok (VStr <$> text)
  | Mutagen.TimeStampTextFrame _ _ text => Ok (VStamp <$> text)
  | _ => Raise (PyVal.no_attribute "text")
  end.

Definition frame_data (f : Mutagen.frame) : result (list Byte.byte) :=
  match f with
  | Mutagen.APIC _ _ _ _ data => Ok data
  | _ => Raise (PyVal.no_attribute "data")
  end.

(** ** [AutoTagger.load_tags] *)

(** [str(value.text) if hasattr(value, 'text') else str(value)] *)
Definition raw_text (v : value) : string :=
  match v with
  | VStamp t => Mutagen.stamp_text t
  | VStr s => s
  end.

(** The local function [get_tag] of [load_tags]. *)
Definition get_tag (a : audio) (tag_key : string) : result string :=
  match audio_get a tag_key with
  | None => Ok EmptyString
  | Some tag =>
      match frame_text tag with
      | Raise e => Raise e
      | Ok [] => Ok EmptyString
      | Ok (v :: _) =>
          let raw := raw_text v in
          if decide (tag_key = "TDRC") then
            match Re.match_year raw with
            | Some g => Ok g
            | None => Ok raw
            end
          else Ok raw
      end
  end.

Definition load_tags : M unit :=
  a <- self ;;
  match current_file a with
  | None => ret tt
  | Some path =>
      if negb (Py.truthy_str path) then ret tt else
      o <- try_except (au <- MP3 path ;; ret (Some au))
             (fun e => message_box Critical "Error"
                         ("Failed to read file:" +:+ nl +:+ exn_msg e) ;;;
                       ret None) ;;
      match o with
      | None => ret tt
      | Some au =>
          v <- lift (get_tag au "TPE1") ;; modify_self (set_artist_edit v) ;;;
          v <- lift (get_tag au "TALB") ;; modify_self (set_album_edit v) ;;;
          v <- lift (get_tag au "TIT2") ;; modify_self (set_title_edit v) ;;;
          v <- lift (get_tag au "TDRC") ;; modify_self (set_year_edit v) ;;;
          v <- lift (get_tag au "TRCK") ;; modify_self (set_track_edit v) ;;;
          v <- lift (get_tag au "TCON") ;; modify_self (set_genre_edit v) ;;;
          match audio_get au "APIC:" with
          | Some apic =>
              data <- lift (frame_data apic) ;;
              modify_self (set_art_label (Pixmap data)) ;;;
              modify_self (set_album_art_pixmap (Some data)) ;;;
              modify_self (set_album_art_bytes (Some data))
          | None =>
              modify_self (set_art_label NoAlbumArt) ;;;
              modify_self (set_album_art_pixmap None) ;;;
              modify_self (set_album_art_bytes None)
          end
      end
  end.

(** ** [AutoTagger._save_single_file] and [AutoTagger.save_tags] *)

Definition png_signature : list Byte.byte :=
  [Byte.x89; Byte.x50; Byte.x4e; Byte.x47; Byte.x0d; Byte.x0a; Byte.x1a; Byte.x0a].

(** [data.startswith(p)] on byte strings *)
Fixpoint bytes_startswith (p data : list Byte.byte) : bool :=
  match p, data with
  | [], _ => true
  | a :: p', b :: data' => Byte.eqb a b && bytes_startswith p' data'
  | _ :: _, [] => false
  end.

Definition managed_kinds : list string :=
  ["TPE1"; "TALB"; "TIT2"; "TDRC"; "TRCK"; "TCON"; "APIC"].

(** The frames added for the text widgets, in the order of the source. *)
Definition add_if (text : string) (mk : Z -> string -> Mutagen.frame)
    (t : Mutagen.ID3) : Mutagen.ID3 :=
  if Py.truthy_str text then Mutagen.add (mk 3 text) t else t.

(** The picture frame of the "embed album art" block. *)
Definition cover_frame (data : list Byte.byte) : Mutagen.frame :=
  let mime := if bytes_startswith png_signature data
              then "image/png" else "image/jpeg" in
  Mutagen.APIC 3 mime 3 "Cover" data.

Definition add_cover (art : option (list Byte.byte)) (t : Mutagen.ID3) : Mutagen.ID3 :=
  match art with
  | Some data =>
      if truthy_bytes art then Mutagen.add (cover_frame data) t else t
  | None => t
  end.

(** The "clear tags" loop. *)
Definition cleared (t : Mutagen.ID3) : Mutagen.ID3 :=
  foldl (fun t kind => Mutagen.delall kind t) t managed_kinds.

(** The container after the "clear tags" loop and the "set new tags" block. *)
Definition retag (a : AutoTagger) (t : Mutagen.ID3) : Mutagen.ID3 :=
  let t := cleared t in
  let t := add_if (artist_edit a) Mutagen.TPE1 t in
  let t := add_if (album_edit a) Mutagen.TALB t in
  let t := add_if (title_edit a) Mutagen.TIT2 t in
  let t := add_if (year_edit a) Mutagen.TDRC t in
  let t := add_if (track_edit a) Mutagen.TRCK t in
  let t := add_if (genre_edit a) Mutagen.TCON t in
  add_cover (album_art_bytes a) t.

Definition _save_single_file (filepath : string) (suppress_reload : bool) : M unit :=
  o <- try_except
         (au <- try_except_cls ID3NoHeaderError (MP3 filepath)
                  (au <- MP3 filepath ;; add_tags au) ;;
          ret (Some au))
         (fun e => print (SkipLine filepath (exn_msg e)) ;;; ret None) ;;
  match o with
  | None => ret tt
  | Some au =>
      t <- lift (audio_tags au) ;;
      a <- self ;;
      let au := {| filename := filename au; tags := Some (retag a t) |} in
      let v1 := if id3_version a =? 1 then 1 else 0 in
      let v2_version := if negb (id3_version a =? 1) then id3_version a else 3 in
      try_except (save au v1 v2_version)
        (fun e => message_box Critical "Save Error"
                    ("Failed to save " +:+ OsPath.basename filepath +:+ ":"
                     +:+ nl +:+ exn_msg e)) ;;;
      a <- self ;;
      if negb suppress_reload && bool_decide (Some filepath = current_file a)
      then load_tags else ret tt
  end.

Definition is_mp3 (f : string) : bool := Py.endswith ".mp3" (Py.lower f).

Definition save_tags : M unit :=
  a <- self ;;
  if truthy_path (current_file a) then
    _save_single_file (default EmptyString (current_file a)) false ;;;
    modify_self (set_status_label StatusTagsSaved)
  else if truthy_path (current_folder a) then
    let folder := default EmptyString (current_folder a) in
    names <- listdir folder ;;
    let mp3_files := OsPath.join folder <$> filter (fun f => is_mp3 f = true) names in
    match mp3_files with
    | [] => message_box Warning "No MP3s" "No MP3 files found in folder."
    | _ =>
        for_each mp3_files (fun mp3 => _save_single_file mp3 true) ;;;
        modify_self (set_status_label (StatusSavedFiles (length mp3_files)))
    end
  else message_box Warning "No Target" "Load a file or folder first.".

(** ** [AutoTagger.auto_fetch_info] *)

(** [re.match(r'^(\d{4})', v)] on a decoded value: not a string is a
    [TypeError]. *)
Definition re_match_year (v : json) : result (option string) :=
  match v with
  | JStr s => Ok (Re.match_year s)
  | _ => Raise (Exn TypeError "expected string or bytes-like object")
  end.

(** The body of the [if rec.get("releases"):] block: the new album and year. *)
Definition from_release (rec new_album new_year : json) : result (json * json) :=
  match PyVal.getitem rec "releases" with
  | Raise e => Raise e
  | Ok rels =>
  match PyVal.getitem0 rels with
  | Raise e => Raise e
  | Ok release =>
  match PyVal.get_default release "title" new_album with
  | Raise e => Raise e
  | Ok new_album =>
  match PyVal.contains "date" release with
  | Raise e => Raise e
  | Ok false => Ok (new_album, new_year)
  | Ok true =>
  match PyVal.getitem release "date" with
  | Raise e => Raise e
  | Ok date =>
  match re_match_year date with
  | Raise e => Raise e
  | Ok (Some g) => Ok (new_album, JStr g)
  | Ok None => Ok (new_album, new_year)
  end end end end end end.

(** [rec["artist-credit"][0]["name"] if rec.get("artist-credit") else artist] *)
Definition credited_artist (rec : json) (artist : string) : result json :=
  match PyVal.get rec "artist-credit" with
  | Raise e => Raise e
  | Ok ac =>
      if PyVal.truthy ac then
        match PyVal.getitem rec "artist-credit" with
        | Raise e => Raise e
        | Ok credits =>
            match PyVal.getitem0 credits with
            | Raise e => Raise e
            | Ok credit => PyVal.getitem credit "name"
            end
        end
      else Ok (JStr artist)
  end.

Definition recording_query (artist title : string) : string :=
  "artist:" +:+ dq +:+ artist +:+ dq +:+ " recording:" +:+ dq +:+ title +:+ dq.

Definition auto_fetch_try (artist title : string) : M unit :=
  resp <- requests_get (RecordingSearch (recording_query artist title)) ;;
  data <- lift (decoded resp) ;;
  recs <- lift (PyVal.get data "recordings") ;;
  if negb (PyVal.truthy recs) then
    message_box Information "No Match" "No recording found on MusicBrainz."
  else
    recs <- lift (PyVal.getitem data "recordings") ;;
    rec <- lift (PyVal.getitem0 recs) ;;
    new_artist <- lift (credited_artist rec artist) ;;
    new_title <- lift (PyVal.getitem rec "title") ;;
    a <- self ;;
    let new_album := JStr (album_edit a) in
    let new_year := JStr (year_edit a) in
    let new_track := JStr (track_edit a) in
    rels <- lift (PyVal.get rec "releases") ;;
    ay <- (if PyVal.truthy rels then lift (from_release rec new_album new_year)
           else ret (new_album, new_year)) ;;
    setText set_artist_edit new_artist ;;;
    setText set_album_edit ay.1 ;;;
    setText set_title_edit new_title ;;;
    setText set_year_edit ay.2 ;;;
    setText set_track_edit new_track ;;;
    modify_self (set_status_label StatusAutoFetched).

(** The artist and title to search for: the text of the widgets, completed
    from the file name where one of them is empty. *)
Definition search_terms (a : AutoTagger) : result (string * string) :=
  let artist := Py.strip (artist_edit a) in
  let title := Py.strip (title_edit a) in
  if negb (Py.truthy_str artist && Py.truthy_str title) then
    match parse_filename (default EmptyString (current_file a)) with
    | Ok fn => Ok (Py.or_str artist fn.1, Py.or_str title fn.2)
    | Raise e => Raise e
    end
  else Ok (artist, title).

Definition auto_fetch_info : M unit :=
  a <- self ;;
  if negb (truthy_path (current_file a)) then ret tt else
  at_ <- lift (search_terms a) ;;
  let artist := at_.1 in
  let title := at_.2 in
  if negb (Py.truthy_str artist) || negb (Py.truthy_str title) then
    message_box Warning "Not Enough Info" "Need Artist and Title to search."
  else
    try_except (auto_fetch_try artist title)
      (fun e => message_box Critical "Fetch Error"
                  ("Auto-fetch failed:" +:+ nl +:+ exn_msg e)).

(** ** [AutoTagger.fetch_album_art] *)

Definition release_query (album artist : string) : string :=
  "release:" +:+ dq +:+ album +:+ dq +:+ " artist:" +:+ dq +:+ artist +:+ dq.

Definition fetch_album_art_try (artist album : string) : M unit :=
  resp <- requests_get (ReleaseSearch (release_query album artist)) ;;
  data <- lift (decoded resp) ;;
  rels <- lift (PyVal.get data "releases") ;;
  if negb (PyVal.truthy rels) then
    message_box Information "Not Found" "No release found."
  else
    rels <- lift (PyVal.getitem data "releases") ;;
    rel <- lift (PyVal.getitem0 rels) ;;
    mbid <- lift (PyVal.getitem rel "id") ;;
    img_resp <- requests_get (CoverArtFront mbid) ;;
    if status_code img_resp =? 200 then
      modify_self (set_album_art_bytes (Some (content img_resp))) ;;;
      modify_self (set_art_label (Pixmap (content img_resp))) ;;;
      modify_self (set_album_art_pixmap (Some (content img_resp))) ;;;
      modify_self (set_status_label StatusArtFetched)
    else message_box Information "No Art" "No album art available.".

Definition fetch_album_art : M unit :=
  a <- self ;;
  if truthy_path (current_folder a) then
    message_box Warning "Folder Mode" "Load a single file to fetch album art."
  else
    let artist := Py.strip (artist_edit a) in
    let album := Py.strip (album_edit a) in
    if negb (Py.truthy_str artist) || negb (Py.truthy_str album) then
      message_box Warning "Missing Info" "Enter Artist and Album."
    else
      try_except (fetch_album_art_try artist album)
        (fun e => message_box Critical "Error"
                    ("Failed to fetch album art:" +:+ nl +:+ exn_msg e)).

(** ** Target selection and the version selector *)

(** [l[i]] on a Python list: a negative index counts from the end. *)
Definition py_index {A} (l : list A) (i : Z) : result A :=
  let n := Z.of_nat (length l) in
  let j := if i <? 0 then i + n else i in
  if (0 <=? j) && (j <? n) then item l (Z.to_nat j)
  else Raise (Exn IndexError "list index out of range").

Definition on_id3_version_change (index : Z) : M unit :=
  v <- lift (py_index [1; 3; 4] index) ;;
  modify_self (set_id3_version v).

Definition clear_fields : M unit :=
  modify_self (set_artist_edit EmptyString) ;;;
  modify_self (set_album_edit EmptyString) ;;;
  modify_self (set_title_edit EmptyString) ;;;
  modify_self (set_year_edit EmptyString) ;;;
  modify_self (set_track_edit EmptyString) ;;;
  modify_self (set_genre_edit EmptyString) ;;;
  modify_self (set_art_label NoAlbumArt) ;;;
  modify_self (set_album_art_pixmap None) ;;;
  modify_self (set_album_art_bytes None).

Definition load_single_file (path : string) : M unit :=
  modify_self (set_current_file (Some path)) ;;;
  modify_self (set_current_folder None) ;;;
  load_tags ;;;
  modify_self (set_btn_auto_fetch true) ;;;
  modify_self (set_status_label (StatusLoaded (OsPath.basename path))).

Definition load_folder_path (path : string) : M unit :=
  modify_self (set_current_folder (Some path)) ;;;
  modify_self (set_current_file None) ;;;
  clear_fields ;;;
  modify_self (set_btn_auto_fetch false) ;;;
  modify_self (set_status_label (StatusFolder (OsPath.basename path))).

(** The window as [__init__] leaves it. *)
Definition init : AutoTagger :=
  {| current_file := None; current_folder := None;
     album_art_pixmap := None; album_art_bytes := None; id3_version := 3;
     artist_edit := EmptyString; album_edit := EmptyString;
     title_edit := EmptyString; year_edit := EmptyString;
     track_edit := EmptyString; genre_edit := EmptyString;
     btn_auto_fetch := false; art_label := NoAlbumArt;
     status_label := StatusReady |}.

(** ** Drag and drop, the file choosers, and a session *)

(** [s == c * len(s)] for a one-character [c] *)
Fixpoint all_char (c : ascii) (s : string) : bool :=
  match s with
  | EmptyString => true
  | String a s' => if decide (a = c) then all_char c s' else false
  end.

Fixpoint lstrip_char (c : ascii) (s : string) : string :=
  match s with
  | EmptyString => EmptyString
  | String a s' => if decide (a = c) then lstrip_char c s' else s
  end.

(** [s.rstrip(c)] for a one-character [c] *)
Definition rstrip_char (c : ascii) (s : string) : string :=
  String.rev (lstrip_char c (String.rev s)).

(** [os.path.dirname(p)]: the part up to the last slash, without trailing
    slashes unless it consists of slashes. *)
Definition dirname (p : string) : string :=
  let i := Py.rfind "/" p + 1 in
  let head := Py.take_str (Z.to_nat i) p in
  if Py.truthy_str head && negb (all_char "/" head)
  then rstrip_char "/" head else head.

(** [os.path.isfile] and [os.path.isdir]: the files are the paths of [fs],
    the directories those of [dirs]. *)
Definition isfile (w : World) (p : string) : bool :=
  bool_decide (is_Some (fs w !! p)).

Definition isdir (w : World) (p : string) : bool :=
  bool_decide (is_Some (dirs w !! p)).

(** [os.path.isfile(p) and p.lower().endswith('.mp3')] *)
Definition is_mp3_file (w : World) (p : string) : bool :=
  isfile w p && is_mp3 p.

(** The URLs of a drop: local files, and others. *)
Inductive QUrl :=
| LocalFile (path : string)
| OtherUrl (address : string).

(** [[url.toLocalFile() for url in urls if url.isLocalFile()]] *)
Definition local_paths (urls : list QUrl) : list string :=
  omap (fun u => match u with LocalFile p => Some p | OtherUrl _ => None end) urls.

(** The last loop of [dropEvent]: load the first MP3 file and stop. *)
Fixpoint load_first_mp3 (paths : list string) : M unit :=
  match paths with
  | [] => ret tt
  | p :: rest =>
      w <- world ;;
      if is_mp3_file w p then load_single_file p else load_first_mp3 rest
  end.

Definition dropEvent (urls : list QUrl) : M unit :=
  let paths := local_paths urls in
  match paths with
  | [] => ret tt
  | [path] =>
      w <- world ;;
      if is_mp3_file w path then load_single_file path
      else if isdir w path then load_folder_path path
      else ret tt
  | _ =>
      w <- world ;;
      let mp3_files := filter (fun p => is_mp3_file w p = true) paths in
      match mp3_files with
      | first :: _ => load_folder_path (dirname first)
      | [] => load_first_mp3 paths
      end
  end.

(** [load_file] and [load_folder]; the argument is what the chooser
    returned, empty when it was cancelled. *)
Definition load_file (file_path : string) : M unit :=
  if Py.truthy_str file_path then load_single_file file_path else ret tt.

Definition load_folder (folder_path : string) : M unit :=
  if Py.truthy_str folder_path then load_folder_path folder_path else ret tt.

(** What the user can do with the window, and the handler of each action. *)
Inductive action :=
| ChooseFile (file_path : string)
| ChooseFolder (folder_path : string)
| Drop (urls : list QUrl)
| SelectVersion (index : Z)
| AutoFetch
| FetchArt
| Save.

Definition handler (x : action) : M unit :=
  match x with
  | ChooseFile p => load_file p
  | ChooseFolder p => load_folder p
  | Drop urls => dropEvent urls
  | SelectVersion i => on_id3_version_change i
  | AutoFetch => auto_fetch_info
  | FetchArt => fetch_album_art
  | Save => save_tags
  end.

(** A session: the actions one after the other, each from the state the
    previous one left (also where it ended in an exception). *)
Definition session (actions : list action) (st : St) : St :=
  foldl (fun st x => (handler x st).2) st actions.

(** * Vocabulary of the specification *)

(** [sep] occurs in [s] with [l] before it and [r] after it, and nowhere
    further to the left: the first occurrence. *)
Definition first_split (sep s l r : string) : Prop :=
  s = l +:+ sep +:+ r /\
  forall l' r', s = l' +:+ sep +:+ r' -> (Py.len l <= Py.len l')%nat.

(** Every character of [g] is a decimal digit. *)
Definition all_digits (g : string) : Prop :=
  forall i c, String.get i g = Some c -> Py.isdigit c = true.

(** [y] is the leading four-digit sequence of [raw]. *)
Definition leading_year (raw y : string) : Prop :=
  exists tail, raw = y +:+ tail /\ Py.len y = 4%nat /\ all_digits y.

(** The sentence "the left part becomes the artist and the remainder the
    title", read to the letter. *)
Definition splits_verbatim (filepath : string) : Prop :=
  forall l r, first_split " - " (stem filepath) l r ->
              parse_filename filepath = Ok (l, r).


(** The current target is a folder: [current_folder] holds a path.  (The
    program only ever stores a non-empty path there.) *)
Definition folder_mode (a : AutoTagger) : Prop :=
  exists path, current_folder a = Some path /\ path <> EmptyString.

(** The [v1] and [v2_version] arguments a file was last saved with. *)
Definition saved_as (w : World) (path : string) : option (Z * Z) :=
  match fs w !! path with
  | Some (Audio _ _ s) => s
  | _ => None
  end.

(** The tag container of a file. *)
Definition tags_of (w : World) (path : string) : option Mutagen.ID3 :=
  match fs w !! path with
  | Some (Audio t _ _) => t
  | _ => None
  end.

(** A world with nothing in it and nothing to answer. *)
Definition empty_world : World :=
  {| fs := ∅; dirs := ∅; net := []; requests := []; dialogs := []; stdout := [] |}.

(** Running a method: the state it ends in. *)
Definition run {A} (m : M A) (st : St) : St := (m st).2.

(** [m] leaves the observation [f] of the state as it was. *)
Definition keeps {A X} (f : St -> X) (m : M A) : Prop :=
  forall st, f (m st).2 = f st.

(** The [v1] and [v2_version] arguments of [audio.save] for a window. *)
Definition save_arguments (a : AutoTagger) : Z * Z :=
  (if id3_version a =? 1 then 1 else 0,
   if negb (id3_version a =? 1) then id3_version a else 3).

(** The version selector offers ID3v1, ID3v2.3 and ID3v2.4. *)
Definition version_selected (a : AutoTagger) : Prop :=
  id3_version a = 1 \/ id3_version a = 3 \/ id3_version a = 4.

(** The message box of a failed save. *)
Definition save_error (filepath : string) (e : exn) : dialog :=
  Dialog Critical "Save Error"
    ("Failed to save " +:+ OsPath.basename filepath +:+ ":" +:+ nl +:+ exn_msg e).

(** The six managed text fields: hash key, widget, frame constructor. *)
Definition text_fields
  : list (string * (AutoTagger -> string) * (Z -> string -> Mutagen.frame)) :=
  [("TPE1", artist_edit, Mutagen.TPE1); ("TALB", album_edit, Mutagen.TALB);
   ("TIT2", title_edit, Mutagen.TIT2); ("TDRC", year_edit, Mutagen.TDRC);
   ("TRCK", track_edit, Mutagen.TRCK); ("TCON", genre_edit, Mutagen.TCON)].

(** The container [t] holds, of the six text kinds, exactly the frames of
    the non-empty fields of the window [a]. *)
Definition written_text (a : AutoTagger) (t : Mutagen.ID3) : Prop :=
  Forall (fun kfm : string * (AutoTagger -> string) * (Z -> string -> Mutagen.frame) =>
            t !! kfm.1.1 =
              if Py.truthy_str (kfm.1.2 a) then Some (kfm.2 3 (kfm.1.2 a)) else None)
         text_fields.

(** The picture frame a window writes, if any. *)
Definition cover_of (a : AutoTagger) : option Mutagen.frame :=
  match album_art_bytes a with
  | Some (b :: data) => Some (cover_frame (b :: data))
  | _ => None
  end.

(** The container [t] holds, of the picture kind, exactly the cover of the
    window [a], under the key of its description. *)
Definition written_cover (a : AutoTagger) (t : Mutagen.ID3) : Prop :=
  forall k, Py.startswith "APIC:" k = true ->
            t !! k = if decide (k = "APIC:Cover") then cover_of a else None.

(** What [get_tag] returns for a field that was written from the text [x]:
    the text itself, and for the year the leading four digits of the text
    of the time stamp made from [x] (the whole text where there are none). *)
Definition read_back (key x : string) : string :=
  if Py.truthy_str x then
    if decide (key = "TDRC") then
      let raw := Mutagen.stamp_text (Mutagen.stamp_of_text x) in
      default raw (Re.match_year raw)
    else x
  else EmptyString.


(** Each text field of [a1] is what [get_tag] returns for the field of [a]
    once written. *)
Definition reads_back (a a1 : AutoTagger) : Prop :=
  Forall (fun kfm : string * (AutoTagger -> string) * (Z -> string -> Mutagen.frame) =>
            kfm.1.2 a1 = read_back kfm.1.1 (kfm.1.2 a))
         text_fields.


(** The paths a batch save goes through, in order. *)
Definition batch_files (folder : string) (names : list string) : list string :=
  OsPath.join folder <$> filter (fun f => is_mp3 f = true) names.

(** The error box a file gives rise to in a batch, if its save fails. *)
Definition failure_of (w : World) (path : string) : option dialog :=
  match fs w !! path with
  | Some (Audio (Some _) (Some e) _) => Some (save_error path e)
  | _ => None
  end.

(** A file that opens with a tag container. *)
Definition has_container (w : World) (path : string) : Prop :=
  exists t l sv, fs w !! path = Some (Audio (Some t) l sv).

(** A file that opens with a tag container and can be saved. *)
Definition writable (w : World) (path : string) : Prop :=
  exists t sv, fs w !! path = Some (Audio (Some t) None sv).

(** A file of the batch was written from the window [a]. *)
Definition written_from (a : AutoTagger) (w w' : World) (path : string) : Prop :=
  exists t sv,
    fs w !! path = Some (Audio (Some t) None sv) /\
    fs w' !! path = Some (Audio (Some (retag a t)) None (Some (save_arguments a))).

(** A folder of three files, the second of which cannot be saved. *)
Definition locked_error : exn := Exn OSError "[Errno 13] Permission denied".


Definition batch_window : AutoTagger :=
  set_title_edit "T" (run (load_folder_path "/m") (init, empty_world)).1.

(** The three message boxes of an empty result, and the error boxes. *)
Definition no_match_box : dialog :=
  Dialog Information "No Match" "No recording found on MusicBrainz.".
Definition not_found_box : dialog :=
  Dialog Information "Not Found" "No release found.".
Definition no_art_box : dialog :=
  Dialog Information "No Art" "No album art available.".
Definition fetch_error_box (e : exn) : dialog :=
  Dialog Critical "Fetch Error" ("Auto-fetch failed:" +:+ nl +:+ exn_msg e).
Definition art_error_box (e : exn) : dialog :=
  Dialog Critical "Error" ("Failed to fetch album art:" +:+ nl +:+ exn_msg e).

(** The outcomes of a lookup, as the specification names them, read off the
    message box that reports them. *)
Inductive outcome := NoMatch | NotFound | LookupError.

Definition outcome_of (d : dialog) : option outcome :=
  match dlg_icon d with
  | Critical => Some LookupError
  | Information =>
      if decide (dlg_title d = "No Match") then Some NoMatch
      else if decide (dlg_title d = "Not Found") then Some NotFound
      else if decide (dlg_title d = "No Art") then Some NotFound
      else None
  | Warning => None
  end.

(** A recording search can start: a file is loaded and both search terms
    are there. *)
Definition can_search_recording (a : AutoTagger) (artist title : string) : Prop :=
  truthy_path (current_file a) = true /\
  search_terms a = Ok (artist, title) /\
  artist <> EmptyString /\ title <> EmptyString.

(** A cover search can start: no folder is loaded and artist and album are
    there. *)
Definition can_search_cover (a : AutoTagger) (artist album : string) : Prop :=
  truthy_path (current_folder a) = false /\
  artist = Py.strip (artist_edit a) /\ album = Py.strip (album_edit a) /\
  artist <> EmptyString /\ album <> EmptyString.

(** The world after one request [u] was answered. *)
Definition answered (u : url) (rest : list http_result) (w : World) : World :=
  set_net rest (set_requests (u :: requests w) w).

(** The world after a message box was shown. *)
Definition shown (d : dialog) (w : World) : World :=
  set_dialogs (d :: dialogs w) w.

(** Sample answers of the network. *)
Definition json_response (v : json) : http_result :=
  Responds {| status_code := 200; content := []; decoded := Ok v |}.

Definition image_response (code : Z) (data : list Byte.byte) : http_result :=
  Responds {| status_code := code; content := data;
              decoded := Raise (Exn JSONDecodeError "Expecting value") |}.

Definition timeout_error : exn := Exn RequestException "Read timed out.".

Definition online (answers : list http_result) : World := set_net answers empty_world.

(** A window with a file loaded whose name gives the search terms, and one
    with artist and album typed in. *)
Definition file_window : AutoTagger :=
  set_current_file (Some "/m/Artist - Title.mp3") init.

Definition album_window : AutoTagger :=
  set_album_edit "Album" (set_artist_edit "Artist" file_window).

(** The top recording of the answer a recording search is about to get. *)
Definition top_recording (w : World) : option json :=
  match net w with
  | Responds r :: _ =>
      match decoded r with
      | Ok data =>
          match PyVal.getitem data "recordings" with
          | Ok recs =>
              match PyVal.getitem0 recs with
              | Ok rec => Some rec
              | Raise _ => None
              end
          | Raise _ => None
          end
      | Raise _ => None
      end
  | _ => None
  end.

(** The recording carries no associated releases: it has no "releases"
    member, or an empty one. *)
Definition no_releases (rec : json) : Prop :=
  exists rels, PyVal.get rec "releases" = Ok rels /\ PyVal.truthy rels = false.

(** The first release of a recording. *)
Definition first_release (rec : json) : option json :=
  match PyVal.getitem rec "releases" with
  | Ok rels =>
      match PyVal.getitem0 rels with
      | Ok release => Some release
      | Raise _ => None
      end
  | Raise _ => None
  end.

(** The release has no date, or a date in which the pattern finds no
    leading four digits. *)
Definition no_parseable_date (release : json) : Prop :=
  PyVal.contains "date" release = Ok false \/
  exists d, PyVal.getitem release "date" = Ok d /\
            forall g, re_match_year d <> Ok (Some g).

(** The last block of [auto_fetch_info]: the five [setText] calls and the
    status line. *)
Definition set_fields (new_artist new_album new_title new_year new_track : json)
  : M unit :=
  setText set_artist_edit new_artist ;;;
  setText set_album_edit new_album ;;;
  setText set_title_edit new_title ;;;
  setText set_year_edit new_year ;;;
  setText set_track_edit new_track ;;;
  modify_self (set_status_label StatusAutoFetched).

(** A recording answered without releases, and one whose first release has
    a date that does not start with a year. *)
Definition recording_without_releases : json :=
  JObj [("title", JStr "Song");
        ("artist-credit", JArr [JObj [("name", JStr "The Band")]])].

Definition recording_with_undated_release : json :=
  JObj [("title", JStr "Song");
        ("releases", JArr [JObj [("title", JStr "LP"); ("date", JStr "")]])].

Definition found (rec : json) : World :=
  online [json_response (JObj [("recordings", JArr [rec])])].

(** A loaded file with album, year and track number filled in. *)
Definition tagged_window : AutoTagger :=
  set_track_edit "7" (set_year_edit "1999" (set_album_edit "Old LP" file_window)).

(** A tag set with all six text fields and a cover, as the window holds it
    when a file is loaded; a file with an empty tag container; and a fresh
    window on the same file. *)
Definition png_cover : list Byte.byte := png_signature ++ [Byte.x00; Byte.x2a].

Definition full_window : AutoTagger :=
  {| current_file := Some "/m/a.mp3"; current_folder := None;
     album_art_pixmap := Some png_cover; album_art_bytes := Some png_cover;
     id3_version := 3;
     artist_edit := "Artist"; album_edit := "Album"; title_edit := "Title";
     year_edit := "2003-05-12"; track_edit := "7"; genre_edit := "Rock";
     btn_auto_fetch := true; art_label := Pixmap png_cover;
     status_label := StatusLoaded "a.mp3" |}.

Definition one_file : World :=
  set_fs {[ "/m/a.mp3" := Audio (Some ∅) None None ]} empty_world.

(** A file that carries one picture frame, with the given description. *)
Definition pictured (desc : string) (data : list Byte.byte) : World :=
  set_fs {[ "/m/a.mp3" :=
              Audio (Some {[ "APIC:" +:+ desc :=
                               Mutagen.APIC 3 "image/jpeg" 3 desc data ]})
                    None None ]} empty_world.

(** A fresh window with only a file chosen. *)
Definition file_window_on (path : string) : AutoTagger :=
  set_current_file (Some path) init.

(** The files a save is aimed at: the loaded file, or the MP3 files listed
    in the loaded folder. *)
Definition target_files (st : St) : list string :=
  if truthy_path (current_file st.1) then [default EmptyString (current_file st.1)]
  else if truthy_path (current_folder st.1) then
    match dirs st.2 !! default EmptyString (current_folder st.1) with
    | Some names => batch_files (default EmptyString (current_folder st.1)) names
    | None => []
    end
  else [].

(** Two files side by side, both with an empty tag container. *)
Definition two_files : World :=
  set_fs {[ "/m/a.mp3" := Audio (Some ∅) None None;
            "/m/b.mp3" := Audio (Some ∅) None None ]} empty_world.

(** At most one target is chosen. *)
Definition one_target (a : AutoTagger) : Prop :=
  current_file a = None \/ current_folder a = None.

(** What the handlers other than the loaders and the selector leave alone:
    the target and the selected version. *)
Definition selection (st : St) : option string * option string * Z :=
  (current_file st.1, current_folder st.1, id3_version st.1).

(** A hash key that belongs to none of the seven managed kinds. *)
Definition unmanaged (k : string) : Prop :=
  Forall (fun kind => k <> kind /\ Py.startswith (kind +:+ ":") k = false)
         managed_kinds.

(** A file with an artist, a comment and a described picture. *)
Definition commented : Mutagen.ID3 :=
  {[ "TPE1" := Mutagen.TPE1 3 "Old artist";
     "COMM::eng" := Mutagen.OtherFrame "COMM::eng" [Byte.x68; Byte.x69];
     "APIC:Back" := Mutagen.APIC 3 "image/jpeg" 4 "Back" [Byte.xff] ]}.

Definition commented_file : World :=
  set_fs {[ "/m/a.mp3" := Audio (Some commented) None None ]} empty_world.

(** The world after the file [path], of container [t], was written from
    the window [a]. *)
Definition written_world (a : AutoTagger) (w : World) (path : string)
    (t : Mutagen.ID3) : World :=
  set_fs (<[path := Audio (Some (retag a t)) None (Some (save_arguments a))]> (fs w)) w.

(** No picture frame at all. *)
Definition no_picture (t : Mutagen.ID3) : Prop :=
  forall k, Py.startswith "APIC:" k = true -> t !! k = None.

(** The file at [path] cannot be opened: it is missing, or the tag library
    raises [e] on it; [msg] is the text of the exception. *)
Definition unreadable (w : World) (path msg : string) : Prop :=
  (fs w !! path = None /\ msg = "[Errno 2] No such file or directory") \/
  (exists e, fs w !! path = Some (Corrupt e) /\ msg = exn_msg e).

(** The box of a failed read. *)
Definition read_error_box (msg : string) : dialog :=
  Dialog Critical "Error" ("Failed to read file:" +:+ nl +:+ msg).

(** The six text fields of a window. *)
Definition texts (a : AutoTagger) : list string :=
  [artist_edit a; album_edit a; title_edit a; year_edit a; track_edit a;
   genre_edit a].

(** What [get_tag] gives for the six managed kinds of an audio object. *)
Definition stored_texts (au : audio) : list (result string) :=
  get_tag au <$> ["TPE1"; "TALB"; "TIT2"; "TDRC"; "TRCK"; "TCON"].

(** A window with edits that were not saved, and files to meet it: one
    that is locked, and none at all. *)
Definition edited_window : AutoTagger :=
  set_artist_edit "New artist" (set_year_edit "2024" (file_window_on "/m/a.mp3")).

Definition locked_file : World :=
  set_fs {[ "/m/a.mp3" :=
              Audio (Some {[ "TPE1" := Mutagen.TPE1 3 "Old artist" ]})
                    (Some locked_error) None ]} empty_world.

Definition bare_file : World :=
  set_fs {[ "/m/a.mp3" := Audio None None None ]} empty_world.

(** The cover a read takes from an audio object: the data of the picture
    frame without description. *)
Definition stored_cover (au : audio) : option (list Byte.byte) :=
  match audio_get au "APIC:" with
  | Some (Mutagen.APIC _ _ _ _ data) => Some data
  | _ => None
  end.

(** An audio object that [load_tags] reads without an exception: the six
    texts are [vs], and what is stored under "APIC:" is a picture frame. *)
Definition reads_as (au : audio) (vs : list string) : Prop :=
  stored_texts au = Ok <$> vs /\
  forall f, audio_get au "APIC:" = Some f -> exists data, frame_data f = Ok data.

(** The artist a recording gives: the name of its first credit, or the
    artist searched for when it has no credits. *)
Definition credited (rec : list (string * json)) (artist name : string) : Prop :=
  (exists credit more,
      PyVal.lookup "artist-credit" rec = Some (JArr (JObj credit :: more)) /\
      PyVal.lookup "name" credit = Some (JStr name)) \/
  (PyVal.truthy (default JNull (PyVal.lookup "artist-credit" rec)) = false /\
   name = artist).

(** A recording with a credit and a dated release. *)
Definition full_recording : json :=
  JObj [("id", JStr "r-1"); ("title", JStr "Song");
        ("artist-credit", JArr [JObj [("name", JStr "The Band")]]);
        ("releases", JArr [JObj [("title", JStr "LP"); ("date", JStr "1971-11-08")];
                           JObj [("title", JStr "Best of")]])].

Definition one_release : http_result :=
  json_response (JObj [("releases", JArr [JObj [("id", JStr "mbid-1")]])]).

(** The ten decimal digits, and the check that a year of four digits is
    read as a number and printed back as it was. *)
Definition digit_chars : list ascii :=
  ["0"; "1"; "2"; "3"; "4"; "5"; "6"; "7"; "8"; "9"]%char.

Definition year_prints_back (c1 c2 c3 c4 : ascii) : bool :=
  let y := String c1 (String c2 (String c3 (String c4 EmptyString))) in
  match Mutagen.int y with
  | Some n => bool_decide (Mutagen.zero_pad 4 n = y)
  | None => false
  end.

Definition all_years_print_back : bool :=
  forallb (fun c1 => forallb (fun c2 => forallb (fun c3 => forallb (fun c4 =>
    year_prints_back c1 c2 c3 c4) digit_chars) digit_chars) digit_chars) digit_chars.

(** What may follow the year in a date: nothing, or a separator of the time
    stamp or white space and then anything. *)
Definition date_tail (rest : string) : Prop :=
  rest = EmptyString \/
  exists c r, rest = String c r /\
              (Mutagen.is_stamp_sep c = true \/ Py.isspace c = true).

(** A drop of two files that are no MP3 files, and one of two MP3 files
    from different folders. *)
Definition mixed_disk : World :=
  set_dirs {[ "/m" := ["a.mp3"]; "/n" := ["b.mp3"] ]}
    (set_fs {[ "/m/a.mp3" := Audio (Some ∅) None None;
               "/n/b.mp3" := Audio (Some ∅) None None;
               "/m/notes.txt" := Corrupt (Exn MutagenError "can't sync to MPEG frame") ]}
       empty_world).

(** A folder of three files, the second of which has no ID3 header. *)
Definition headerless_folder : World :=
  set_fs {[ "/m/1.mp3" := Audio (Some commented) None None;
            "/m/2.mp3" := Audio None None None;
            "/m/3.mp3" := Audio (Some commented) None None ]}
    (set_dirs {[ "/m" := ["1.mp3"; "2.mp3"; "3.mp3"] ]} empty_world).


(** * Properties *)

(** ** Facts about the string operations *)

Section StringFacts.

Local Open Scope nat_scope.

Lemma append_cons c (a b : string) : String c a +:+ b = String c (a +:+ b).
Proof. reflexivity. Qed.

Lemma append_empty_l (s : string) : EmptyString +:+ s = s.
Proof. reflexivity. Qed.

Lemma len_append (a b : string) : Py.len (a +:+ b) = Py.len a + Py.len b.
Proof. induction a as [|c a IH]; [done|]. rewrite append_cons. simpl. by rewrite IH. Qed.

Lemma drop_str_append (p t : string) : Py.drop_str (Py.len p) (p +:+ t) = t.
Proof. induction p as [|c p IH]; [done|]. by rewrite append_cons. Qed.

Lemma startswith_append (p t : string) : Py.startswith p (p +:+ t) = true.
Proof.
  induction p as [|c p IH]; [done|].
  rewrite append_cons. simpl. by rewrite decide_True.
Qed.

Lemma startswith_inv (p s : string) :
  Py.startswith p s = true -> exists t, s = p +:+ t.
Proof.
  revert s. induction p as [|c p IH]; intros s H.
  - by exists s.
  - destruct s as [|d s]; [done|]. simpl in H.
    destruct (decide (c = d)) as [->|]; [|done].
    destruct (IH s H) as [t ->]. by exists t.
Qed.

Lemma partition_first_sound (sep s l r : string) :
  Py.partition_first sep s = Some (l, r) -> first_split sep s l r.
Proof.
  revert l r. induction s as [|c s IH]; intros l r H; simpl in H.
  - destruct (Py.startswith sep EmptyString) eqn:E; [|done].
    injection H as <- <-. apply startswith_inv in E as [t Ht].
    split; [|simpl; lia].
    rewrite append_empty_l. by rewrite Ht at 1 2; rewrite drop_str_append.
  - destruct (Py.startswith sep (String c s)) eqn:E.
    + injection H as <- <-. apply startswith_inv in E as [t Ht].
      split; [|simpl; lia].
      rewrite append_empty_l. by rewrite Ht at 1 2; rewrite drop_str_append.
    + destruct (Py.partition_first sep s) as [[l0 r0]|] eqn:P; [|done].
      injection H as <- <-. destruct (IH _ _ eq_refl) as [-> Hmin].
      split; [done|]. intros [|d l'] r' Hs.
      * rewrite append_empty_l in Hs. rewrite Hs, startswith_append in E. done.
      * rewrite append_cons in Hs. injection Hs as _ Hs.
        simpl. apply le_n_S. by eapply Hmin.
Qed.

Lemma partition_first_complete (sep s l r : string) :
  first_split sep s l r -> Py.partition_first sep s = Some (l, r).
Proof.
  revert s. induction l as [|c l IH]; intros s [-> Hmin].
  - rewrite append_empty_l.
    destruct r as [|d r], sep as [|e sep]; simpl;
      rewrite ?startswith_append, ?decide_True, ?drop_str_append by done; done.
  - rewrite append_cons.
    assert (Py.startswith sep (String c (l +:+ sep +:+ r)) = false) as E.
    { destruct (Py.startswith sep _) eqn:E; [|done].
      apply startswith_inv in E as [t Ht].
      specialize (Hmin EmptyString t). rewrite append_empty_l in Hmin.
      specialize (Hmin Ht). simpl in Hmin. lia. }
    simpl. rewrite E. rewrite (IH (l +:+ sep +:+ r)); [done|].
    split; [done|]. intros l' r' Hs.
    assert (Py.len (String c l) <= Py.len (String c l')) as Hle.
    { apply (Hmin (String c l') r').
      change (String c (l +:+ sep +:+ r) = String c (l' +:+ sep +:+ r')).
      by rewrite Hs. }
    simpl in Hle. lia.
Qed.

Lemma contains_complete (sub l r : string) :
  Py.contains sub (l +:+ sub +:+ r) = true.
Proof.
  induction l as [|c l IH].
  - rewrite append_empty_l. destruct (sub +:+ r) eqn:E; simpl;
      rewrite <- E, startswith_append; done.
  - rewrite append_cons. simpl. rewrite IH. by destruct (Py.startswith _ _).
Qed.

Lemma contains_sound (sub s : string) :
  Py.contains sub s = true -> exists l r, s = l +:+ sub +:+ r.
Proof.
  induction s as [|c s IH]; simpl; intros H.
  - destruct (Py.startswith sub EmptyString) eqn:E; [|done].
    apply startswith_inv in E as [t ->]. by exists EmptyString, t.
  - destruct (Py.startswith sub (String c s)) eqn:E.
    + apply startswith_inv in E as [t ->]. by exists EmptyString, t.
    + destruct (IH H) as (l & r & ->). by exists (String c l), r.
Qed.

(** Where [sep] occurs at all, it has a first occurrence. *)
Lemma contains_partition (sep s : string) :
  Py.contains sep s = true -> is_Some (Py.partition_first sep s).
Proof.
  induction s as [|c s IH]; simpl; intros H.
  - destruct (Py.startswith sep EmptyString); [eauto|done].
  - destruct (Py.startswith sep (String c s)); [eauto|].
    destruct (IH H) as [[l r] ->]. eauto.
Qed.


Lemma digits_complete (g tail : string) :
  all_digits g -> Re.digits (Py.len g) (g +:+ tail) = Some g.
Proof.
  induction g as [|c g IH]; intros Hd; [done|].
  rewrite append_cons. simpl. rewrite (Hd 0 c eq_refl).
  rewrite IH; [done|]. intros i d Hg. by apply (Hd (S i)).
Qed.

End StringFacts.

(** ** Year extraction and the file-name fallback *)

Example parse_artist_title :
  parse_filename "Artist - Title.mp3" = Ok ("Artist", "Title").
Proof. reflexivity. Qed.

Example parse_just_a_title :
  parse_filename "/music/JustATitle.mp3" = Ok ("", "JustATitle").
Proof. reflexivity. Qed.

Example parse_inner_dot :
  parse_filename "/x.y/A  - B.tar.mp3" = Ok ("A", "B.tar").
Proof. reflexivity. Qed.

Example stamp_full_date :
  Mutagen.stamp_text (Mutagen.stamp_of_text "2003-05-12") = "2003-05-12".
Proof. reflexivity. Qed.

Example stamp_not_a_date :
  Mutagen.stamp_text (Mutagen.stamp_of_text "circa 2003") = "".
Proof. reflexivity. Qed.

Example stamp_short_year :
  Mutagen.stamp_text (Mutagen.stamp_of_text "99 1") = "0099-01".
Proof. reflexivity. Qed.

Lemma match_year_leading (raw y : string) :
  leading_year raw y -> Re.match_year raw = Some y.
Proof.
  intros (tail & -> & Hl & Hd). unfold Re.match_year.
  rewrite <- Hl. by apply digits_complete.
Qed.




(** C6, to the letter, fails: the parts are stripped of surrounding white
    space, so a left part ending in a blank does not become the artist. *)
Lemma splits_verbatim_counterexample :
  first_split " - " (stem "A  - B.mp3") "A " "B" /\
  parse_filename "A  - B.mp3" = Ok ("A", "B") /\
  ~ splits_verbatim "A  - B.mp3".
Proof.
  assert (first_split " - " (stem "A  - B.mp3") "A " "B") as Hf
    by (by apply partition_first_sound).
  split; [done|]. split; [reflexivity|].
  intros H. specialize (H _ _ Hf). vm_compute in H. discriminate.
Qed.

(** C6, amended. For every path, [parse_filename] splits the
    extension-stripped basename at the first occurrence of " - ": the left
    part stripped of surrounding white space is the artist and the
    remainder, stripped likewise, the title (so "A - B - C.mp3" gives
    ("A", "B - C")); without " - " in the basename the artist is empty and
    the title is the whole basename. *)
Theorem parse_filename_spec (filepath : string) :
  (forall l r, first_split " - " (stem filepath) l r ->
               parse_filename filepath = Ok (Py.strip l, Py.strip r)) /\
  ((forall l r, stem filepath <> l +:+ " - " +:+ r) ->
   parse_filename filepath = Ok (EmptyString, stem filepath)) /\
  parse_filename "A - B - C.mp3" = Ok ("A", "B - C").
Proof.
  split; [|split; [|reflexivity]].
  - intros l r Hf. unfold parse_filename, Py.split1.
    rewrite (partition_first_complete _ _ _ _ Hf).
    destruct Hf as [-> _]. by rewrite contains_complete.
  - intros Hno. unfold parse_filename.
    destruct (Py.contains " - " (stem filepath)) eqn:E; [|done].
    apply contains_sound in E as (l & r & E). by apply Hno in E.
Qed.

Lemma parse_filename_spec_witness :
  parse_filename "A - B - C.mp3" = Ok ("A", "B - C") /\
  parse_filename "JustATitle.mp3" = Ok ("", "JustATitle").
Proof.
  split.
  - refine (proj1 (parse_filename_spec "A - B - C.mp3") "A" "B - C" _).
    by apply partition_first_sound.
  - refine (proj1 (proj2 (parse_filename_spec "JustATitle.mp3")) _).
    intros l r H. pose proof (contains_complete " - " l r) as C.
    rewrite <- H in C. vm_compute in C. discriminate.
Defined.

(** ** Cover-art fetch in folder mode *)

(** C7. Whenever the current target is a folder, [fetch_album_art] shows the
    "Folder Mode" warning and nothing else happens: the window is unchanged
    and no request is made. *)
Theorem folder_mode_refuses_cover_fetch (a : AutoTagger) (w : World) :
  folder_mode a ->
  fetch_album_art (a, w) =
    (Ok tt,
     (a, set_dialogs
           (Dialog Warning "Folder Mode" "Load a single file to fetch album art."
            :: dialogs w) w)) /\
  requests (run fetch_album_art (a, w)).2 = requests w /\
  net (run fetch_album_art (a, w)).2 = net w.
Proof.
  intros (path & Hf & Hne).
  assert (truthy_path (current_folder a) = true) as Ht.
  { rewrite Hf. by destruct path. }
  unfold run, fetch_album_art, bind, self. simpl. by rewrite Ht.
Qed.

Lemma folder_mode_refuses_cover_fetch_witness :
  let a := (run (load_folder_path "/music") (init, empty_world)).1 in
  folder_mode a /\
  requests (run fetch_album_art (a, empty_world)).2 = [] /\
  net (run fetch_album_art (a, empty_world)).2 = [].
Proof.
  intros a.
  assert (folder_mode a) as Hf.
  { exists "/music". split; [reflexivity|discriminate]. }
  split; [exact Hf|].
  exact (proj2 (folder_mode_refuses_cover_fetch a empty_world Hf)).
Defined.

(** ** Frame rules for the monad *)

Section Keeps.

Context {X : Type} (f : St -> X).

Lemma keeps_ret {A} (a : A) : keeps f (ret a).
Proof. by intros st. Qed.

Lemma keeps_raise {A} (e : exn) : keeps f (raise (A:=A) e).
Proof. by intros st. Qed.

Lemma keeps_lift {A} (r : result A) : keeps f (lift r).
Proof. by intros st. Qed.

Lemma keeps_self : keeps f self.
Proof. by intros st. Qed.

Lemma keeps_world : keeps f world.
Proof. by intros st. Qed.

Lemma keeps_bind {A B} (m : M A) (k : A -> M B) :
  keeps f m -> (forall a, keeps f (k a)) -> keeps f (bind m k).
Proof.
  intros Hm Hk st. unfold bind. specialize (Hm st).
  destruct (m st) as [[a|e] st']; simpl in *; [|done].
  by rewrite Hk.
Qed.

Lemma keeps_try_except {A} (m : M A) (h : exn -> M A) :
  keeps f m -> (forall e, keeps f (h e)) -> keeps f (try_except m h).
Proof.
  intros Hm Hh st. unfold try_except. specialize (Hm st).
  destruct (m st) as [[a|e] st']; simpl in *; [done|].
  by rewrite Hh.
Qed.

Lemma keeps_modify_self (g : AutoTagger -> AutoTagger) :
  (forall a w, f (g a, w) = f (a, w)) -> keeps f (modify_self g).
Proof. intros H [a w]. apply H. Qed.

Lemma keeps_modify_world (g : World -> World) :
  (forall a w, f (a, g w) = f (a, w)) -> keeps f (modify_world g).
Proof. intros H [a w]. apply H. Qed.

Lemma keeps_for_each {A} (l : list A) (body : A -> M unit) :
  (forall x, keeps f (body x)) -> keeps f (for_each l body).
Proof.
  intros H. induction l as [|x l IH]; simpl; [apply keeps_ret|].
  apply keeps_bind; [apply H|done].
Qed.

End Keeps.

(** Decompose a goal [keeps f m] along the structure of [m]. *)
Ltac keeps_step :=
  lazymatch goal with
  | |- keeps _ (bind _ _) => apply keeps_bind; [|intro]
  | |- keeps _ (try_except _ _) => apply keeps_try_except; [|intro]
  | |- keeps _ (try_except_cls _ _ _) => apply keeps_try_except; [|intro]
  | |- keeps _ (ret _) => apply keeps_ret
  | |- keeps _ (raise _) => apply keeps_raise
  | |- keeps _ (lift _) => apply keeps_lift
  | |- keeps _ self => apply keeps_self
  | |- keeps _ world => apply keeps_world
  | |- keeps _ (modify_self _) => apply keeps_modify_self; by intros
  | |- keeps _ (modify_world _) => apply keeps_modify_world; by intros
  | |- keeps _ (match ?x with _ => _ end) => destruct x
  | |- keeps _ (if ?x then _ else _) => destruct x
  end.

Ltac keeps_auto := repeat keeps_step.

Lemma keeps_message_box {X} (f : St -> X) i title text :
  (forall a w d, f (a, set_dialogs d w) = f (a, w)) ->
  keeps f (message_box i title text).
Proof. intros H. apply keeps_modify_world. intros. apply H. Qed.

Lemma load_tags_keeps_files : keeps (fun st => fs st.2) load_tags.
Proof.
  unfold load_tags, MP3, message_box. keeps_auto.
Qed.

Lemma load_tags_keeps_version : keeps (fun st => id3_version st.1) load_tags.
Proof.
  unfold load_tags, MP3, message_box. keeps_auto.
Qed.

(** ** Writing one file *)

(** A file with a tag container that can be written: the container is
    replaced by [retag] of it and the save arguments are recorded. *)
Lemma save_single_written (a : AutoTagger) (w : World) path t sv :
  fs w !! path = Some (Audio (Some t) None sv) ->
  version_selected a ->
  _save_single_file path true (a, w) =
    (Ok tt,
     (a, set_fs (<[path := Audio (Some (retag a t)) None (Some (save_arguments a))]>
                   (fs w)) w)).
Proof.
  intros Hf Hv.
  unfold _save_single_file, try_except_cls, try_except, MP3, save, bind, world,
    self, lift, ret, modify_world. simpl. rewrite Hf. simpl. rewrite Hf.
  unfold save_arguments.
  destruct Hv as [-> | [-> | ->]]; reflexivity.
Qed.

(** A file with a tag container whose save fails: the file stays as it was
    and one "Save Error" box is shown. *)
Lemma save_single_locked (a : AutoTagger) (w : World) path t e sv :
  fs w !! path = Some (Audio (Some t) (Some e) sv) ->
  _save_single_file path true (a, w) =
    (Ok tt, (a, set_dialogs (save_error path e :: dialogs w) w)).
Proof.
  intros Hf.
  unfold _save_single_file, try_except_cls, try_except, MP3, save, bind, world,
    self, lift, ret, modify_world. simpl. rewrite Hf. simpl. rewrite Hf.
  reflexivity.
Qed.

(** A file without an ID3 header opens with [tags = None]; the handler for
    [ID3NoHeaderError] is not reached and the "clear tags" loop raises. *)
Lemma save_single_no_header (a : AutoTagger) (w : World) path l sv b :
  fs w !! path = Some (Audio None l sv) ->
  _save_single_file path b (a, w) = (Raise (PyVal.no_attribute "delall"), (a, w)).
Proof.
  intros Hf.
  unfold _save_single_file, try_except_cls, try_except, MP3, bind, world,
    self, lift, ret. simpl. by rewrite Hf.
Qed.

(** With the reload, a written file has the same content. *)
Lemma save_single_written_files (a : AutoTagger) (w : World) path t sv b :
  fs w !! path = Some (Audio (Some t) None sv) ->
  version_selected a ->
  fs (run (_save_single_file path b) (a, w)).2 =
    <[path := Audio (Some (retag a t)) None (Some (save_arguments a))]> (fs w).
Proof.
  intros Hf Hv. destruct b.
  - unfold run. by rewrite (save_single_written _ _ _ _ _ Hf Hv).
  - unfold run, _save_single_file, try_except_cls, try_except, MP3, save, bind,
      world, self, lift, ret, modify_world. simpl. rewrite Hf. simpl. rewrite Hf.
    assert ((((if negb (id3_version a =? 1) then id3_version a else 3) =? 3) ||
             ((if negb (id3_version a =? 1) then id3_version a else 3) =? 4))
            = true) as -> by (by destruct Hv as [-> | [-> | ->]]).
    simpl. case_bool_decide; [|done].
    by rewrite (load_tags_keeps_files _).
Qed.

(** ** The version selector *)

Lemma saved_after_write (a : AutoTagger) (w : World) path t sv b :
  fs w !! path = Some (Audio (Some t) None sv) ->
  version_selected a ->
  let w' := (run (_save_single_file path b) (a, w)).2 in
  saved_as w' path = Some (save_arguments a) /\
  tags_of w' path = Some (retag a t).
Proof.
  intros Hf Hv w'. unfold saved_as, tags_of, w'.
  rewrite (save_single_written_files _ _ _ _ _ _ Hf Hv).
  by rewrite lookup_insert_eq.
Qed.



(** ** The container after a write *)

Section Container.

Implicit Types t : Mutagen.ID3.

Lemma delall_lookup_Some key t k f :
  Mutagen.delall key t !! k = Some f -> t !! k = Some f.
Proof.
  unfold Mutagen.delall. destruct (t !! key) eqn:E.
  - intros H. by apply lookup_delete_Some in H as [_ H].
  - apply map_lookup_filter_Some_1_1.
Qed.

Lemma delall_lookup_None key t k :
  t !! k = None -> Mutagen.delall key t !! k = None.
Proof.
  intros H. destruct (Mutagen.delall key t !! k) eqn:E; [|done].
  apply delall_lookup_Some in E. congruence.
Qed.

Lemma delall_lookup_self key t : Mutagen.delall key t !! key = None.
Proof.
  unfold Mutagen.delall. destruct (t !! key) eqn:E.
  - apply lookup_delete_eq.
  - apply map_lookup_filter_None. by left.
Qed.

Lemma delall_lookup_prefix key t k :
  t !! key = None -> Py.startswith (key +:+ ":") k = true ->
  Mutagen.delall key t !! k = None.
Proof.
  intros E Hp. unfold Mutagen.delall. rewrite E.
  apply map_lookup_filter_None. right. intros f _. simpl. congruence.
Qed.

Lemma delall_lookup_other key t k :
  k <> key -> Py.startswith (key +:+ ":") k = false ->
  Mutagen.delall key t !! k = t !! k.
Proof.
  intros Hne Hp. unfold Mutagen.delall. destruct (t !! key) eqn:E.
  - by apply lookup_delete_ne.
  - destruct (t !! k) as [f|] eqn:Ek.
    + by apply map_lookup_filter_Some.
    + apply map_lookup_filter_None. by left.
Qed.

Lemma cleared_lookup_Some t k f : cleared t !! k = Some f -> t !! k = Some f.
Proof.
  unfold cleared, managed_kinds. simpl. intros H.
  do 7 apply delall_lookup_Some in H. exact H.
Qed.

Lemma cleared_text_kind t k :
  k ∈ ["TPE1"; "TALB"; "TIT2"; "TDRC"; "TRCK"; "TCON"] -> cleared t !! k = None.
Proof.
  unfold cleared, managed_kinds. simpl. intros H.
  repeat (apply elem_of_cons in H as [->|H];
          [repeat first [apply delall_lookup_self | apply delall_lookup_None]|]).
  by apply elem_of_nil in H.
Qed.

Lemma cleared_picture t k :
  t !! "APIC" = None -> Py.startswith "APIC:" k = true -> cleared t !! k = None.
Proof.
  unfold cleared, managed_kinds. simpl. intros H Hp.
  apply delall_lookup_prefix; [|done]. by repeat apply delall_lookup_None.
Qed.

(** Frames of other kinds are left alone. *)
Lemma cleared_unmanaged t k :
  Forall (fun kind => k <> kind /\ Py.startswith (kind +:+ ":") k = false)
         managed_kinds ->
  cleared t !! k = t !! k.
Proof.
  unfold cleared, managed_kinds. simpl. intros H.
  repeat (apply Forall_cons_1 in H; destruct H as [[? ?] H]).
  by rewrite !delall_lookup_other.
Qed.

End Container.

Section Retag.

Implicit Types (t : Mutagen.ID3) (a : AutoTagger).

Lemma add_if_lookup x mk t k :
  add_if x mk t !! k =
    if Py.truthy_str x then
      if decide (Mutagen.HashKey (mk 3 x) = k) then Some (mk 3 x) else t !! k
    else t !! k.
Proof.
  unfold add_if, Mutagen.add. destruct (Py.truthy_str x); [|done].
  apply lookup_insert.
Qed.

Lemma add_if_lookup_ne x mk t k :
  Mutagen.HashKey (mk 3 x) <> k -> add_if x mk t !! k = t !! k.
Proof.
  intros Hne. rewrite add_if_lookup.
  destruct (Py.truthy_str x); [|done]. by rewrite decide_False.
Qed.

Lemma add_cover_lookup a t k :
  add_cover (album_art_bytes a) t !! k =
    match cover_of a with
    | Some f => if decide ("APIC:Cover" = k) then Some f else t !! k
    | None => t !! k
    end.
Proof.
  unfold add_cover, cover_of, Mutagen.add.
  destruct (album_art_bytes a) as [[|b data]|]; simpl; [done| |done].
  apply lookup_insert.
Qed.

Lemma cover_lookup_text a t k :
  Py.startswith "APIC:" k = false ->
  add_cover (album_art_bytes a) t !! k = t !! k.
Proof.
  intros H. rewrite add_cover_lookup. destruct (cover_of a); [|done].
  case_decide; [by subst|done].
Qed.

Lemma retag_written_text a t : written_text a (retag a t).
Proof.
  unfold written_text, text_fields, retag.
  repeat apply Forall_cons_2; [..|apply Forall_nil_2]; cbn [fst snd];
    rewrite cover_lookup_text by done; rewrite !add_if_lookup; cbn [Mutagen.HashKey
      Mutagen.TPE1 Mutagen.TALB Mutagen.TIT2 Mutagen.TDRC Mutagen.TRCK Mutagen.TCON];
    repeat (case_decide; [done|]); rewrite ?decide_True by done;
    rewrite cleared_text_kind by set_solver;
    repeat match goal with |- context [Py.truthy_str ?x] =>
             destruct (Py.truthy_str x) end; done.
Qed.

Lemma retag_written_cover a t :
  t !! "APIC" = None -> written_cover a (retag a t).
Proof.
  intros Ht k Hk. unfold retag. rewrite add_cover_lookup.
  assert (forall id, Py.startswith "APIC:" id = false -> id <> k) as Hne
    by (intros id Hid ->; congruence).
  rewrite !add_if_lookup_ne by (by apply Hne).
  rewrite (cleared_picture _ _ Ht Hk).
  destruct (cover_of a); repeat case_decide; congruence.
Qed.

Lemma retag_unmanaged a t k :
  Forall (fun kind => k <> kind /\ Py.startswith (kind +:+ ":") k = false)
         managed_kinds ->
  retag a t !! k = t !! k.
Proof.
  intros H. unfold retag. cbv zeta. rewrite <- (cleared_unmanaged t k H).
  unfold managed_kinds in H.
  repeat (apply Forall_cons_1 in H; destruct H as [[? ?] H]).
  rewrite add_cover_lookup.
  assert ("APIC:Cover" <> k) by (intros <-; done).
  rewrite !add_if_lookup_ne by (simpl; congruence).
  destruct (cover_of a); [|done]. by rewrite decide_False.
Qed.

End Retag.

(** ** Reading one file *)

Lemma load_tags_result (a0 : AutoTagger) (w : World) path t l s v1 v2 v3 v4 v5 v6 :
  current_file a0 = Some path -> path <> EmptyString ->
  fs w !! path = Some (Audio t l s) ->
  let au := {| filename := path; tags := t |} in
  get_tag au "TPE1" = Ok v1 -> get_tag au "TALB" = Ok v2 ->
  get_tag au "TIT2" = Ok v3 -> get_tag au "TDRC" = Ok v4 ->
  get_tag au "TRCK" = Ok v5 -> get_tag au "TCON" = Ok v6 ->
  let a1 := (run load_tags (a0, w)).1 in
  (artist_edit a1 = v1 /\ album_edit a1 = v2 /\ title_edit a1 = v3 /\
   year_edit a1 = v4 /\ track_edit a1 = v5 /\ genre_edit a1 = v6) /\
  (audio_get au "APIC:" = None -> album_art_bytes a1 = None) /\
  (forall f data, audio_get au "APIC:" = Some f -> frame_data f = Ok data ->
                  album_art_bytes a1 = Some data).
Proof.
  intros Hc Hp Hf au H1 H2 H3 H4 H5 H6 a1. subst a1.
  unfold run, load_tags, try_except, MP3, bind, world, self, lift, ret,
    modify_self. simpl. rewrite Hc.
  destruct path as [|c path]; [done|]. simpl. rewrite Hf. simpl.
  fold au. rewrite H1, H2, H3, H4, H5, H6. simpl.
  destruct (audio_get au "APIC:") as [f|] eqn:E.
  - destruct (frame_data f) as [data|e] eqn:D; simpl;
      (split; [done|]); (split; [done|]); intros f' data' [= <-] Hd; congruence.
  - simpl. split; [done|]. split; [done|]. intros f data [=].
Qed.

Lemma get_tag_written (a : AutoTagger) (t : Mutagen.ID3) path
    (kfm : string * (AutoTagger -> string) * (Z -> string -> Mutagen.frame)) :
  kfm ∈ text_fields -> written_text a t ->
  get_tag {| filename := path; tags := Some t |} kfm.1.1
    = Ok (read_back kfm.1.1 (kfm.1.2 a)).
Proof.
  intros Hin Hw. unfold written_text in Hw.
  rewrite Forall_forall in Hw. specialize (Hw _ Hin).
  unfold get_tag, audio_get, read_back. cbn [tags]. rewrite Hw.
  destruct (Py.truthy_str (kfm.1.2 a)); [|done].
  unfold text_fields in Hin.
  repeat (apply elem_of_cons in Hin as [->|Hin]; [simpl; try done|]).
  - by destruct (Re.match_year _).
  - by apply elem_of_nil in Hin.
Qed.

(** Reading a file whose container was written from the window [a]: the
    text fields are read back, empty for empty. *)
Lemma load_tags_written (a a0 : AutoTagger) (w : World) path t l s :
  current_file a0 = Some path -> path <> EmptyString ->
  fs w !! path = Some (Audio (Some t) l s) ->
  written_text a t ->
  reads_back a (run load_tags (a0, w)).1.
Proof.
  intros Hc Hp Hf Hw.
  assert (forall kfm, kfm ∈ text_fields ->
            get_tag {| filename := path; tags := Some t |} kfm.1.1
              = Ok (read_back kfm.1.1 (kfm.1.2 a))) as Hg
    by (intros; by apply get_tag_written).
  destruct (load_tags_result a0 w path (Some t) l s _ _ _ _ _ _ Hc Hp Hf
              (Hg ("TPE1", artist_edit, Mutagen.TPE1) ltac:(set_solver))
              (Hg ("TALB", album_edit, Mutagen.TALB) ltac:(set_solver))
              (Hg ("TIT2", title_edit, Mutagen.TIT2) ltac:(set_solver))
              (Hg ("TDRC", year_edit, Mutagen.TDRC) ltac:(set_solver))
              (Hg ("TRCK", track_edit, Mutagen.TRCK) ltac:(set_solver))
              (Hg ("TCON", genre_edit, Mutagen.TCON) ltac:(set_solver)))
    as ((? & ? & ? & ? & ? & ?) & _).
  unfold reads_back, text_fields. by repeat constructor.
Qed.


(** ** Write is a full replace *)



(** ** Batch save *)


Section Batch.

Variable a : AutoTagger.
Hypothesis Hv : version_selected a.

Lemma omap_cons {A B} (f : A -> option B) (x : A) (l : list A) :
  omap f (x :: l) =
    match f x with Some y => y :: omap f l | None => omap f l end.
Proof. reflexivity. Qed.

Lemma failures_agree (w w1 : World) (files : list string) :
  (forall p, p ∈ files -> fs w1 !! p = fs w !! p) ->
  omap (failure_of w1) files = omap (failure_of w) files.
Proof.
  induction files as [|p ps IH]; intros H; [done|]. rewrite !omap_cons.
  assert (failure_of w1 p = failure_of w p) as ->.
  { unfold failure_of. rewrite (H p); [done|by left]. }
  rewrite IH; [done|]. intros q Hq. apply H. by right.
Qed.

(** The loop over the files of a batch: every file with a tag container
    is handled on its own; a file that can be saved is written, one that
    cannot is left as it was and reported in an error box. *)
Lemma batch_loop (files : list string) :
  forall w, NoDup files ->
    (forall p, p ∈ files -> has_container w p) ->
    exists w',
      for_each files (fun mp3 => _save_single_file mp3 true) (a, w)
        = (Ok tt, (a, w')) /\
      (forall p, p ∉ files -> fs w' !! p = fs w !! p) /\
      (forall p, p ∈ files -> writable w p -> written_from a w w' p) /\
      (forall p, p ∈ files -> ~ writable w p -> fs w' !! p = fs w !! p) /\
      dialogs w' = rev (omap (failure_of w) files) ++ dialogs w.
Proof.
  induction files as [|p ps IH]; intros w Hnd Hc.
  - exists w. split; [done|]. split; [done|].
    split; [by intros p Hp%elem_of_nil|]. split; [done|]. done.
  - apply NoDup_cons in Hnd as [Hp Hnd].
    destruct (Hc p ltac:(left)) as (t & l & sv & Hf).
    assert (exists w1, _save_single_file p true (a, w) = (Ok tt, (a, w1)) /\
              (forall q, q <> p -> fs w1 !! q = fs w !! q) /\
              (l = None ->
               fs w1 !! p = Some (Audio (Some (retag a t)) None
                                    (Some (save_arguments a))) /\
               dialogs w1 = dialogs w) /\
              (forall e, l = Some e ->
               fs w1 = fs w /\ dialogs w1 = save_error p e :: dialogs w))
      as (w1 & Hstep & Hother & Hok & Hfail).
    { destruct l as [e|].
      - eexists. split; [by apply (save_single_locked _ _ _ _ _ _ Hf)|].
        split; [done|]. split; [done|]. intros e' [= <-]. done.
      - eexists. split; [by apply (save_single_written _ _ _ _ _ Hf Hv)|].
        split; [by intros q Hq; apply lookup_insert_ne|].
        split; [|done]. intros _. split; [apply lookup_insert_eq|done]. }
    assert (forall q, q ∈ ps -> fs w1 !! q = fs w !! q) as Hsame.
    { intros q Hq. apply Hother. by intros ->. }
    destruct (IH w1 Hnd) as (w' & Hrun & Hout & Hwr & Hnw & Hd).
    { intros q Hq. unfold has_container. rewrite (Hsame q Hq).
      apply Hc. by right. }
    exists w'. split; [|split; [|split; [|split]]].
    + simpl. unfold bind. by rewrite Hstep.
    + intros q [Hqp Hq]%not_elem_of_cons. rewrite (Hout q Hq). by apply Hother.
    + intros q Hq (t' & sv' & Hq'). apply elem_of_cons in Hq as [->|Hq].
      * rewrite Hf in Hq'. injection Hq' as <- -> <-.
        exists t, sv. split; [done|]. rewrite (Hout p Hp).
        by apply Hok.
      * destruct (Hwr q Hq) as (t2 & sv2 & H1 & H2).
        { exists t', sv'. by rewrite (Hsame q Hq). }
        exists t2, sv2. split; [by rewrite <- (Hsame q Hq)|done].
    + intros q Hq Hnot. apply elem_of_cons in Hq as [->|Hq].
      * rewrite (Hout p Hp). destruct l as [e|].
        -- by rewrite (proj1 (Hfail e eq_refl)).
        -- destruct Hnot. by exists t, sv.
      * rewrite <- (Hsame q Hq). apply Hnw; [done|].
        unfold writable. by rewrite (Hsame q Hq).
    + rewrite Hd, (failures_agree w w1 ps Hsame), omap_cons.
      unfold failure_of at 2. rewrite Hf. destruct l as [e|].
      * rewrite (proj2 (Hfail e eq_refl)). simpl. by rewrite <- app_assoc.
      * by rewrite (proj2 (Hok eq_refl)).
Qed.


End Batch.

Lemma join_inj (folder n1 n2 : string) :
  Py.startswith "/" n1 = false -> Py.startswith "/" n2 = false ->
  OsPath.join folder n1 = OsPath.join folder n2 -> n1 = n2.
Proof.
  unfold OsPath.join. intros -> ->.
  destruct (negb (Py.truthy_str folder) || Py.endswith "/" folder).
  - apply (inj _).
  - intros H. apply (inj _) in H. by apply (inj _) in H.
Qed.

Lemma batch_files_NoDup (folder : string) (names : list string) :
  NoDup names -> Forall (fun n => Py.startswith "/" n = false) names ->
  NoDup (batch_files folder names).
Proof.
  intros Hnd Hs. unfold batch_files. rewrite Forall_forall in Hs.
  apply NoDup_fmap_2_strong; [|by apply NoDup_filter].
  intros x y [_ Hx]%list_elem_of_filter [_ Hy]%list_elem_of_filter.
  apply join_inj; by apply Hs.
Qed.



(** ** Empty results and errors of the lookups *)

Ltac run_monad :=
  unfold auto_fetch_info, auto_fetch_try, fetch_album_art, fetch_album_art_try,
    requests_get, message_box, setText, try_except, bind, self, world, lift, ret,
    raise, modify_self, modify_world; simpl.

Lemma recording_search_empty (a : AutoTagger) (w : World) artist title r rest data recs :
  can_search_recording a artist title ->
  net w = Responds r :: rest -> decoded r = Ok data ->
  PyVal.get data "recordings" = Ok recs -> PyVal.truthy recs = false ->
  auto_fetch_info (a, w) =
    (Ok tt, (a, shown no_match_box
                  (answered (RecordingSearch (recording_query artist title)) rest w))).
Proof.
  intros (Hc & Ht & Ha & Hti) Hn Hd Hg Hr. run_monad.
  rewrite Hc, Ht. simpl.
  destruct artist; [done|]. destruct title; [done|]. simpl.
  rewrite Hn. simpl. rewrite Hd, Hg, Hr. reflexivity.
Qed.

Lemma recording_search_fails (a : AutoTagger) (w : World) artist title e rest :
  can_search_recording a artist title ->
  net w = Fails e :: rest ->
  auto_fetch_info (a, w) =
    (Ok tt, (a, shown (fetch_error_box e)
                  (answered (RecordingSearch (recording_query artist title)) rest w))).
Proof.
  intros (Hc & Ht & Ha & Hti) Hn. run_monad.
  rewrite Hc, Ht. simpl.
  destruct artist; [done|]. destruct title; [done|]. simpl.
  rewrite Hn. reflexivity.
Qed.

Lemma release_search_empty (a : AutoTagger) (w : World) artist album r rest data rels :
  can_search_cover a artist album ->
  net w = Responds r :: rest -> decoded r = Ok data ->
  PyVal.get data "releases" = Ok rels -> PyVal.truthy rels = false ->
  fetch_album_art (a, w) =
    (Ok tt, (a, shown not_found_box
                  (answered (ReleaseSearch (release_query album artist)) rest w))).
Proof.
  intros (Hc & -> & -> & Ha & Hal) Hn Hd Hg Hr. run_monad.
  rewrite Hc.
  destruct (Py.strip (artist_edit a)); [done|].
  destruct (Py.strip (album_edit a)); [done|]. simpl.
  rewrite Hn. simpl. rewrite Hd, Hg, Hr. reflexivity.
Qed.

Lemma getitem_get (v : json) (k : string) (x : json) :
  PyVal.getitem v k = Ok x -> PyVal.get v k = Ok x.
Proof.
  destruct v; try done. simpl. destruct (PyVal.lookup k l); [|done].
  by intros [= ->].
Qed.

Lemma cover_fetch_refused (a : AutoTagger) (w : World) artist album
    r img rest data rels rel mbid :
  can_search_cover a artist album ->
  net w = Responds r :: Responds img :: rest -> decoded r = Ok data ->
  PyVal.getitem data "releases" = Ok rels -> PyVal.truthy rels = true ->
  PyVal.getitem0 rels = Ok rel -> PyVal.getitem rel "id" = Ok mbid ->
  status_code img <> 200 ->
  fetch_album_art (a, w) =
    (Ok tt, (a, shown no_art_box
                  (answered (CoverArtFront mbid) rest
                     (answered (ReleaseSearch (release_query album artist))
                               (Responds img :: rest) w)))).
Proof.
  intros (Hc & -> & -> & Ha & Hal) Hn Hd Hg Hr H0 Hid Hs. run_monad.
  rewrite Hc.
  destruct (Py.strip (artist_edit a)); [done|].
  destruct (Py.strip (album_edit a)); [done|]. simpl.
  rewrite Hn. simpl. rewrite Hd, (getitem_get _ _ _ Hg), Hr. simpl.
  rewrite Hg, H0, Hid. simpl.
  apply Z.eqb_neq in Hs. rewrite Hs. reflexivity.
Qed.

Lemma release_search_fails (a : AutoTagger) (w : World) artist album e rest :
  can_search_cover a artist album ->
  net w = Fails e :: rest ->
  fetch_album_art (a, w) =
    (Ok tt, (a, shown (art_error_box e)
                  (answered (ReleaseSearch (release_query album artist)) rest w))).
Proof.
  intros (Hc & -> & -> & Ha & Hal) Hn. run_monad.
  rewrite Hc.
  destruct (Py.strip (artist_edit a)); [done|].
  destruct (Py.strip (album_edit a)); [done|]. simpl.
  rewrite Hn. reflexivity.
Qed.

(** C8. A recording search answered with no recordings ends in the
    "No Match" information box; a release search answered with no releases
    and a cover fetch answered with a status other than 200 end in the
    "Not Found" and "No Art" information boxes; the window is unchanged in
    all three. A failed request ends in a critical error box instead. Read
    as outcomes, the first is no-match, the next two are not-found, and the
    error boxes are lookup errors. *)
Theorem empty_results_are_not_errors :
  (forall a w artist title r rest data recs,
      can_search_recording a artist title ->
      net w = Responds r :: rest -> decoded r = Ok data ->
      PyVal.get data "recordings" = Ok recs -> PyVal.truthy recs = false ->
      (run auto_fetch_info (a, w)).1 = a /\
      dialogs (run auto_fetch_info (a, w)).2 = no_match_box :: dialogs w) /\
  (forall a w artist album r rest data rels,
      can_search_cover a artist album ->
      net w = Responds r :: rest -> decoded r = Ok data ->
      PyVal.get data "releases" = Ok rels -> PyVal.truthy rels = false ->
      (run fetch_album_art (a, w)).1 = a /\
      dialogs (run fetch_album_art (a, w)).2 = not_found_box :: dialogs w) /\
  (forall a w artist album r img rest data rels rel mbid,
      can_search_cover a artist album ->
      net w = Responds r :: Responds img :: rest -> decoded r = Ok data ->
      PyVal.getitem data "releases" = Ok rels -> PyVal.truthy rels = true ->
      PyVal.getitem0 rels = Ok rel -> PyVal.getitem rel "id" = Ok mbid ->
      status_code img <> 200 ->
      (run fetch_album_art (a, w)).1 = a /\
      dialogs (run fetch_album_art (a, w)).2 = no_art_box :: dialogs w) /\
  (forall a w artist title e rest,
      can_search_recording a artist title -> net w = Fails e :: rest ->
      dialogs (run auto_fetch_info (a, w)).2 = fetch_error_box e :: dialogs w) /\
  (forall a w artist album e rest,
      can_search_cover a artist album -> net w = Fails e :: rest ->
      dialogs (run fetch_album_art (a, w)).2 = art_error_box e :: dialogs w) /\
  outcome_of no_match_box = Some NoMatch /\
  outcome_of not_found_box = Some NotFound /\
  outcome_of no_art_box = Some NotFound /\
  (forall e, outcome_of (fetch_error_box e) = Some LookupError /\
             outcome_of (art_error_box e) = Some LookupError).
Proof.
  split; [|split; [|split; [|split; [|split]]]].
  - intros a w artist title r rest data recs Hc Hn Hd Hg Hr. unfold run.
    by rewrite (recording_search_empty _ _ _ _ _ _ _ _ Hc Hn Hd Hg Hr).
  - intros a w artist album r rest data rels Hc Hn Hd Hg Hr. unfold run.
    by rewrite (release_search_empty _ _ _ _ _ _ _ _ Hc Hn Hd Hg Hr).
  - intros a w artist album r img rest data rels rel mbid Hc Hn Hd Hg Hr H0 Hid Hs.
    unfold run.
    by rewrite (cover_fetch_refused _ _ _ _ _ _ _ _ _ _ _ Hc Hn Hd Hg Hr H0 Hid Hs).
  - intros a w artist title e rest Hc Hn. unfold run.
    by rewrite (recording_search_fails _ _ _ _ _ _ Hc Hn).
  - intros a w artist album e rest Hc Hn. unfold run.
    by rewrite (release_search_fails _ _ _ _ _ _ Hc Hn).
  - by repeat split.
Qed.

Lemma empty_results_are_not_errors_witness :
  let no_recordings := json_response (JObj [("recordings", JArr [])]) in
  let no_releases := json_response (JObj [("releases", JArr []); ("count", JNum 0)]) in
  let one_release := json_response (JObj [("releases", JArr [JObj [("id", JStr "mbid-1")]])]) in
  dialogs (run auto_fetch_info (file_window, online [no_recordings])).2 = [no_match_box] /\
  dialogs (run fetch_album_art (album_window, online [no_releases])).2 = [not_found_box] /\
  dialogs (run fetch_album_art
             (album_window, online [one_release; image_response 404 []])).2 = [no_art_box] /\
  dialogs (run auto_fetch_info (file_window, online [Fails timeout_error])).2
    = [fetch_error_box timeout_error] /\
  dialogs (run fetch_album_art (album_window, online [Fails timeout_error])).2
    = [art_error_box timeout_error].
Proof.
  intros no_recordings no_releases one_release.
  assert (can_search_recording file_window "Artist" "Title") as Hrec.
  { repeat split; [by vm_compute..|discriminate|discriminate]. }
  assert (can_search_cover album_window "Artist" "Album") as Hcov.
  { repeat split; [by vm_compute..|discriminate|discriminate]. }
  destruct empty_results_are_not_errors as (H1 & H2 & H3 & H4 & H5 & _).
  split; [|split; [|split; [|split]]].
  - exact (proj2 (H1 file_window (online [no_recordings]) _ _ _ _ _ _
                    Hrec eq_refl eq_refl eq_refl eq_refl)).
  - exact (proj2 (H2 album_window (online [no_releases]) _ _ _ _ _ _
                    Hcov eq_refl eq_refl eq_refl eq_refl)).
  - refine (proj2 (H3 album_window (online [one_release; image_response 404 []])
                    _ _ _ _ _ _ _ _ _ Hcov eq_refl eq_refl eq_refl eq_refl
                    eq_refl eq_refl _)).
    discriminate.
  - exact (H4 file_window (online [Fails timeout_error]) _ _ _ _ Hrec eq_refl).
  - exact (H5 album_window (online [Fails timeout_error]) _ _ _ _ Hcov eq_refl).
Defined.

(** ** What a recording lookup leaves alone *)

(** A run of [set_fields] that stops at a [setText], or goes through. *)
Ltac frame_case :=
  solve [ split; [|split]; intros H;
          first [discriminate H | injection H as -> | idtac]; reflexivity ].

Lemma set_fields_frame (na nal nt ny ntr : json) (a : AutoTagger) (w : World) :
  let a' := (set_fields na nal nt ny ntr (a, w)).2.1 in
  (ntr = JStr (track_edit a) -> track_edit a' = track_edit a) /\
  (nal = JStr (album_edit a) -> album_edit a' = album_edit a) /\
  (ny = JStr (year_edit a) -> year_edit a' = year_edit a).
Proof.
  unfold set_fields, setText, bind, raise, modify_self.
  destruct na; simpl; try frame_case.
  destruct nal; simpl; try frame_case.
  destruct nt; simpl; try frame_case.
  destruct ny; simpl; try frame_case.
  destruct ntr; simpl; frame_case.
Qed.

Lemma from_release_year (rec al yr al' yr' release : json) :
  from_release rec al yr = Ok (al', yr') ->
  first_release rec = Some release -> no_parseable_date release ->
  yr' = yr.
Proof.
  unfold from_release, first_release.
  destruct (PyVal.getitem rec "releases") as [rels|]; [|done].
  destruct (PyVal.getitem0 rels) as [release0|]; [|done].
  intros H [= ->] Hno.
  destruct (PyVal.get_default release "title" al) as [al0|]; [|done].
  destruct Hno as [Hc | (d & Hd & Hm)].
  - rewrite Hc in H. by injection H as _ <-.
  - destruct (PyVal.contains "date" release) as [[|]|]; [| |done].
    + rewrite Hd in H. destruct (re_match_year d) as [[g|]|]; [|by injection H|done].
      by destruct (Hm g).
    + by injection H as _ <-.
Qed.

Lemma auto_fetch_try_frame (artist title : string) (a : AutoTagger) (w : World) :
  let a' := (auto_fetch_try artist title (a, w)).2.1 in
  track_edit a' = track_edit a /\
  (forall rec, top_recording w = Some rec -> no_releases rec ->
               album_edit a' = album_edit a /\ year_edit a' = year_edit a) /\
  (forall rec release,
      top_recording w = Some rec -> first_release rec = Some release ->
      no_parseable_date release -> year_edit a' = year_edit a).
Proof.
  unfold top_recording.
  change (auto_fetch_try artist title) with
    (resp <- requests_get (RecordingSearch (recording_query artist title)) ;;
     data <- lift (decoded resp) ;;
     recs <- lift (PyVal.get data "recordings") ;;
     if negb (PyVal.truthy recs) then
       message_box Information "No Match" "No recording found on MusicBrainz."
     else
       recs <- lift (PyVal.getitem data "recordings") ;;
       rec <- lift (PyVal.getitem0 recs) ;;
       new_artist <- lift (credited_artist rec artist) ;;
       new_title <- lift (PyVal.getitem rec "title") ;;
       a <- self ;;
       rels <- lift (PyVal.get rec "releases") ;;
       ay <- (if PyVal.truthy rels
              then lift (from_release rec (JStr (album_edit a)) (JStr (year_edit a)))
              else ret (JStr (album_edit a), JStr (year_edit a))) ;;
       set_fields new_artist ay.1 new_title ay.2 (JStr (track_edit a))).
  unfold requests_get, message_box, bind, self, world, lift, ret, raise,
    modify_world. simpl.
  destruct (net w) as [|[e|r] rest]; simpl; try done.
  destruct (decoded r) as [data|]; simpl; try done.
  destruct (PyVal.get data "recordings") as [recs0|]; simpl; try done.
  destruct (PyVal.truthy recs0); simpl; try done.
  destruct (PyVal.getitem data "recordings") as [recs|]; simpl; try done.
  destruct (PyVal.getitem0 recs) as [rec0|]; simpl; try done.
  destruct (credited_artist rec0 artist) as [na|]; simpl; try done.
  destruct (PyVal.getitem rec0 "title") as [nt|]; simpl; try done.
  destruct (PyVal.get rec0 "releases") as [rels|] eqn:Hrels; simpl; try done.
  destruct (PyVal.truthy rels) eqn:Htr; simpl.
  - destruct (from_release rec0 _ _) as [[al' yr']|] eqn:Hfr; simpl; try done.
    match goal with |- context [set_fields ?x1 ?x2 ?x3 ?x4 ?x5 ?st] =>
      destruct (set_fields_frame x1 x2 x3 x4 x5 a
                  (set_net rest (set_requests
                     (RecordingSearch (recording_query artist title) :: requests w) w)))
        as (Ht & Ha & Hy) end.
    split; [by apply Ht|]. split.
    + intros rec [= <-] (rels' & Hg & Hf). congruence.
    + intros rec release [= <-] Hfirst Hno. apply Hy.
      by rewrite (from_release_year _ _ _ _ _ _ Hfr Hfirst Hno).
  - match goal with |- context [set_fields ?x1 ?x2 ?x3 ?x4 ?x5 ?st] =>
      destruct (set_fields_frame x1 x2 x3 x4 x5 a
                  (set_net rest (set_requests
                     (RecordingSearch (recording_query artist title) :: requests w) w)))
        as (Ht & Ha & Hy) end.
    split; [by apply Ht|]. split; [by intros; split; [apply Ha|apply Hy]|].
    intros. by apply Hy.
Qed.

(** C10. A recording lookup leaves the track number as it was; when the top
    recording of the answer carries no releases it leaves album and year as
    they were; and it leaves the year as it was when the first release has
    no date starting with four digits.  This holds for every run of
    [auto_fetch_info], the successful ones included. *)
Theorem lookup_frame (a : AutoTagger) (w : World) :
  let a' := (run auto_fetch_info (a, w)).1 in
  track_edit a' = track_edit a /\
  (forall rec, top_recording w = Some rec -> no_releases rec ->
               album_edit a' = album_edit a /\ year_edit a' = year_edit a) /\
  (forall rec release,
      top_recording w = Some rec -> first_release rec = Some release ->
      no_parseable_date release -> year_edit a' = year_edit a).
Proof.
  unfold run, auto_fetch_info, bind, self, lift. simpl.
  destruct (truthy_path (current_file a)); simpl; [|done].
  destruct (search_terms a) as [[artist title]|e]; simpl; [|done].
  destruct (negb (Py.truthy_str artist) || negb (Py.truthy_str title)); [done|].
  pose proof (auto_fetch_try_frame artist title a w) as H.
  unfold try_except.
  destruct (auto_fetch_try artist title (a, w)) as [[[]|e] [a1 w1]]; exact H.
Qed.

Lemma lookup_frame_witness :
  let st := run auto_fetch_info (tagged_window, found recording_without_releases) in
  let st' := run auto_fetch_info (tagged_window, found recording_with_undated_release) in
  (status_label st.1 = StatusAutoFetched /\ artist_edit st.1 = "The Band" /\
   title_edit st.1 = "Song" /\
   track_edit st.1 = "7" /\ album_edit st.1 = "Old LP" /\ year_edit st.1 = "1999") /\
  (status_label st'.1 = StatusAutoFetched /\ album_edit st'.1 = "LP" /\
   track_edit st'.1 = "7" /\ year_edit st'.1 = "1999").
Proof.
  intros st st'.
  destruct (lookup_frame tagged_window (found recording_without_releases))
    as (Ht & Hay & _).
  destruct (Hay recording_without_releases eq_refl) as (Ha & Hy).
  { exists JNull. split; reflexivity. }
  destruct (lookup_frame tagged_window (found recording_with_undated_release))
    as (Ht' & _ & Hy').
  specialize (Hy' recording_with_undated_release
                (JObj [("title", JStr "LP"); ("date", JStr "")]) eq_refl eq_refl).
  split.
  - split; [by vm_compute|]. split; [by vm_compute|]. split; [by vm_compute|].
    split; [exact Ht|]. split; [exact Ha|exact Hy].
  - split; [by vm_compute|]. split; [by vm_compute|]. split; [exact Ht'|].
    apply Hy'. right. exists (JStr ""). split; [reflexivity|discriminate].
Defined.

(** ** Write, then read *)

(** The text fields of a written tag set are read back: each field as it
    was written, the year as the leading four digits of its time stamp. *)
Lemma write_then_read_text (a a0 : AutoTagger) (w : World) path t sv b :
  fs w !! path = Some (Audio (Some t) None sv) ->
  version_selected a ->
  current_file a0 = Some path -> path <> EmptyString ->
  reads_back a (run load_tags (a0, (run (_save_single_file path b) (a, w)).2)).1.
Proof.
  intros Hf Hv Hc Hp.
  eapply load_tags_written; [done..| |apply retag_written_text].
  rewrite (save_single_written_files _ _ _ _ _ _ Hf Hv). apply lookup_insert_eq.
Qed.

(** The cover of a written tag set is never read back: the write stores it
    under "APIC:Cover" and the read looks under "APIC:". *)
Lemma written_cover_lost (a a0 : AutoTagger) (w : World) path t sv b :
  fs w !! path = Some (Audio (Some t) None sv) ->
  version_selected a -> t !! "APIC" = None ->
  current_file a0 = Some path -> path <> EmptyString ->
  album_art_bytes (run load_tags (a0, (run (_save_single_file path b) (a, w)).2)).1
    = None.
Proof.
  intros Hf Hv Ht Hc Hp.
  set (w' := (run (_save_single_file path b) (a, w)).2).
  assert (fs w' !! path = Some (Audio (Some (retag a t)) None
                                  (Some (save_arguments a)))) as Hf'.
  { subst w'. rewrite (save_single_written_files _ _ _ _ _ _ Hf Hv).
    apply lookup_insert_eq. }
  pose proof (retag_written_text a t) as Hw.
  assert (forall kfm, kfm ∈ text_fields ->
            get_tag {| filename := path; tags := Some (retag a t) |} kfm.1.1
              = Ok (read_back kfm.1.1 (kfm.1.2 a))) as Hg
    by (intros; by apply get_tag_written).
  destruct (load_tags_result a0 w' path (Some (retag a t)) None _ _ _ _ _ _ _
              Hc Hp Hf'
              (Hg ("TPE1", artist_edit, Mutagen.TPE1) ltac:(set_solver))
              (Hg ("TALB", album_edit, Mutagen.TALB) ltac:(set_solver))
              (Hg ("TIT2", title_edit, Mutagen.TIT2) ltac:(set_solver))
              (Hg ("TDRC", year_edit, Mutagen.TDRC) ltac:(set_solver))
              (Hg ("TRCK", track_edit, Mutagen.TRCK) ltac:(set_solver))
              (Hg ("TCON", genre_edit, Mutagen.TCON) ltac:(set_solver)))
    as (_ & Hnone & _).
  apply Hnone. unfold audio_get. cbn [tags].
  by rewrite (retag_written_cover a t Ht "APIC:" eq_refl).
Qed.

(** C1 fails on the cover. The tag set [full_window] has all six text
    fields and a cover; written to a file and read back, the text fields
    return (the year as "2003"), the picture frame is in the file, and the
    cover that is read is absent. *)
Theorem round_trip_loses_cover :
  let w' := (run (_save_single_file "/m/a.mp3" true) (full_window, one_file)).2 in
  let a1 := (run load_tags (full_window, w')).1 in
  (artist_edit a1 = "Artist" /\ album_edit a1 = "Album" /\ title_edit a1 = "Title" /\
   year_edit a1 = "2003" /\ track_edit a1 = "7" /\ genre_edit a1 = "Rock") /\
  (exists t, tags_of w' "/m/a.mp3" = Some t /\
             t !! "APIC:Cover" = Some (Mutagen.APIC 3 "image/png" 3 "Cover" png_cover)) /\
  album_art_bytes full_window = Some png_cover /\
  album_art_bytes a1 = None.
Proof.
  intros w' a1. split; [by vm_compute|]. split; [|by vm_compute].
  exists (retag full_window ∅). split; vm_compute; reflexivity.
Qed.

(** C4 fails on the picture frame that the write produces. A file written
    with a cover holds a picture frame, of description "Cover", and a read
    of that file returns no cover; so does a read of any file whose one
    picture frame has a description.  A picture frame with the empty
    description is returned, and without a picture frame the cover is
    absent. *)
Theorem written_cover_is_not_read :
  let w' := (run (_save_single_file "/m/a.mp3" true) (full_window, one_file)).2 in
  (exists t, tags_of w' "/m/a.mp3" = Some t /\
             t !! "APIC:Cover" = Some (cover_frame png_cover)) /\
  album_art_bytes (run load_tags (file_window_on "/m/a.mp3", w')).1 = None /\
  album_art_bytes
    (run load_tags (file_window_on "/m/a.mp3", pictured "Cover" png_cover)).1 = None /\
  album_art_bytes
    (run load_tags (file_window_on "/m/a.mp3", pictured "" png_cover)).1
    = Some png_cover /\
  album_art_bytes (run load_tags (file_window_on "/m/a.mp3", one_file)).1 = None.
Proof.
  intros w'. split; [|by vm_compute].
  exists (retag full_window ∅). split; vm_compute; reflexivity.
Qed.

(** * Further properties *)

(** ** What the handlers never touch *)

Lemma keeps_for_each_in {X A} (f : St -> X) (l : list A) (body : A -> M unit) :
  (forall x, x ∈ l -> keeps f (body x)) -> keeps f (for_each l body).
Proof.
  induction l as [|x l IH]; intros H; simpl; [apply keeps_ret|].
  apply keeps_bind; [apply H; by left|]. intros _. apply IH.
  intros y Hy. apply H. by right.
Qed.

(** X1. The two lookups never change a file or a directory listing,
    whatever the network answers. *)
Theorem lookups_keep_disk (st : St) :
  (fs (run auto_fetch_info st).2 = fs st.2 /\
   dirs (run auto_fetch_info st).2 = dirs st.2) /\
  (fs (run fetch_album_art st).2 = fs st.2 /\
   dirs (run fetch_album_art st).2 = dirs st.2).
Proof.
  assert (keeps (fun st => (fs st.2, dirs st.2)) auto_fetch_info) as H1.
  { unfold auto_fetch_info, auto_fetch_try, requests_get, message_box, setText.
    keeps_auto. }
  assert (keeps (fun st => (fs st.2, dirs st.2)) fetch_album_art) as H2.
  { unfold fetch_album_art, fetch_album_art_try, requests_get, message_box.
    keeps_auto. }
  specialize (H1 st). specialize (H2 st). simpl in *. unfold run.
  injection H1 as -> ->. by injection H2 as -> ->.
Qed.

Lemma load_tags_keeps_network :
  keeps (fun st => (requests st.2, net st.2)) load_tags.
Proof. unfold load_tags, MP3, message_box. keeps_auto. Qed.

Lemma save_single_keeps_network path b :
  keeps (fun st => (requests st.2, net st.2)) (_save_single_file path b).
Proof.
  unfold _save_single_file, MP3, add_tags, save, print, message_box.
  repeat first [apply load_tags_keeps_network | keeps_step].
Qed.

(** X2. Reading and saving tags, single file or batch, never make a
    request and never consume an answer of the network. *)
Theorem tagging_is_offline (st : St) :
  (requests (run load_tags st).2 = requests st.2 /\
   net (run load_tags st).2 = net st.2) /\
  (requests (run save_tags st).2 = requests st.2 /\
   net (run save_tags st).2 = net st.2).
Proof.
  assert (keeps (fun st => (requests st.2, net st.2)) save_tags) as H2.
  { unfold save_tags, listdir, message_box.
    repeat first [apply save_single_keeps_network
                 | apply keeps_for_each; intro | keeps_step]. }
  pose proof (load_tags_keeps_network st) as H1.
  specialize (H2 st). simpl in *. unfold run.
  injection H1 as -> ->. by injection H2 as -> ->.
Qed.

Lemma load_tags_keeps_disk : keeps (fun st => (fs st.2, dirs st.2)) load_tags.
Proof. unfold load_tags, MP3, message_box. keeps_auto. Qed.

(** Saving one file changes no other file, and no directory. *)
Lemma save_single_keeps_other path b q :
  q <> path ->
  keeps (fun st => (fs st.2 !! q, dirs st.2)) (_save_single_file path b).
Proof.
  intros Hq [a w].
  assert (forall st, (fs (load_tags st).2.2 !! q, dirs (load_tags st).2.2)
                     = (fs st.2 !! q, dirs st.2)) as Hload.
  { intros st. pose proof (load_tags_keeps_disk st) as H. simpl in H.
    by injection H as -> ->. }
  unfold _save_single_file, try_except_cls, try_except, MP3, add_tags, save,
    print, message_box, bind, world, self, lift, ret, raise, modify_world.
  simpl. destruct (fs w !! path) as [[e|[t|] l sv]|] eqn:Hf; simpl; try done.
  - destruct (decide (exn_cls e = ID3NoHeaderError)); simpl; [|done].
    by rewrite Hf.
  - rewrite Hf. destruct l as [e|]; simpl.
    + destruct (negb b && _); simpl; [|done]. by rewrite Hload.
    + destruct ((_ =? 3) || (_ =? 4)); simpl;
        (destruct (negb b && _); simpl; [rewrite Hload|]; simpl;
         rewrite ?lookup_insert_ne by done; done).
Qed.

(** X3. A save changes no file outside its target (the loaded file, or the
    MP3 files listed in the loaded folder) and no directory listing,
    however the save ends. *)
Theorem save_tags_only_target (st : St) (q : string) :
  q ∉ target_files st ->
  fs (run save_tags st).2 !! q = fs st.2 !! q /\
  dirs (run save_tags st).2 = dirs st.2.
Proof.
  destruct st as [a w]. unfold target_files. simpl. intros Hq.
  assert (forall files st,
            q ∉ files ->
            (fs (for_each files (fun mp3 => _save_single_file mp3 true) st).2.2 !! q,
             dirs (for_each files (fun mp3 => _save_single_file mp3 true) st).2.2)
            = (fs st.2 !! q, dirs st.2)) as Hloop.
  { intros files st Hn.
    apply (keeps_for_each_in (fun st => (fs st.2 !! q, dirs st.2))).
    intros x Hx. apply save_single_keeps_other. by intros ->. }
  unfold run, save_tags, listdir, message_box, bind, self, world, ret, raise,
    modify_self, modify_world. simpl.
  destruct (truthy_path (current_file a)).
  - pose proof (save_single_keeps_other (default "" (current_file a)) false q
                  ltac:(set_solver) (a, w)) as H. simpl in H.
    destruct (_save_single_file _ false (a, w)) as [[[]|e] [a1 w1]]; simpl in *;
      by injection H as -> ->.
  - destruct (truthy_path (current_folder a)); [|done].
    destruct (dirs w !! default "" (current_folder a)) as [names|] eqn:Hd;
      simpl; rewrite ?Hd; simpl; [|done].
    fold (batch_files (default "" (current_folder a)) names) in *.
    specialize (Hloop _ (a, w) Hq).
    destruct (batch_files (default "" (current_folder a)) names) as [|f fs'];
      [done|]. cbv beta.
    destruct (for_each (f :: fs') _ (a, w)) as [[[]|e] [a1 w1]]; simpl in *;
      by injection Hloop as -> ->.
Qed.

Lemma save_tags_only_target_witness :
  target_files (full_window, two_files) = ["/m/a.mp3"] /\
  fs (run save_tags (full_window, two_files)).2 !! "/m/b.mp3"
    = Some (Audio (Some ∅) None None).
Proof.
  split; [reflexivity|].
  assert ("/m/b.mp3" ∉ target_files (full_window, two_files)) as Hq.
  { apply not_elem_of_cons. split; [discriminate|apply not_elem_of_nil]. }
  rewrite (proj1 (save_tags_only_target (full_window, two_files) "/m/b.mp3" Hq)).
  vm_compute; reflexivity.
Defined.

(** ** Exceptions of the lookups *)

Lemma parse_filename_total (filepath : string) :
  exists r, parse_filename filepath = Ok r.
Proof.
  unfold parse_filename, Py.split1.
  destruct (Py.contains " - " (stem filepath)) eqn:E; [|eauto].
  destruct (contains_partition _ _ E) as [[l r] ->]. simpl. eauto.
Qed.

(** X4. No exception leaves [auto_fetch_info] or [fetch_album_art]: whatever
    the file name, the widgets and the answers of the network (failures,
    undecodable or ill-shaped bodies), both return normally. *)
Theorem lookups_never_raise (st : St) :
  (auto_fetch_info st).1 = Ok tt /\ (fetch_album_art st).1 = Ok tt.
Proof.
  destruct st as [a w]. split.
  - unfold auto_fetch_info, search_terms, message_box, try_except, bind, self,
      lift, ret, modify_world. simpl.
    destruct (truthy_path (current_file a)); simpl; [|done].
    destruct (parse_filename_total (default "" (current_file a))) as [r ->].
    destruct (negb (Py.truthy_str _ && Py.truthy_str _)); simpl;
      (destruct (negb (Py.truthy_str _) || negb (Py.truthy_str _)); [done|];
       by destruct (auto_fetch_try _ _ (a, w)) as [[[]|e] st']).
  - unfold fetch_album_art, message_box, try_except, bind, self, modify_world.
    simpl. destruct (truthy_path (current_folder a)); [done|].
    destruct (negb (Py.truthy_str _) || negb (Py.truthy_str _)); [done|].
    by destruct (fetch_album_art_try _ _ (a, w)) as [[[]|e] st'].
Qed.

(** ** Invariants of a session *)

Lemma load_tags_keeps_selection : keeps selection load_tags.
Proof. unfold load_tags, MP3, message_box. keeps_auto. Qed.

Lemma save_single_keeps_selection path b :
  keeps selection (_save_single_file path b).
Proof.
  unfold _save_single_file, MP3, add_tags, save, print, message_box.
  repeat first [apply load_tags_keeps_selection | keeps_step].
Qed.

Lemma save_tags_keeps_selection : keeps selection save_tags.
Proof.
  unfold save_tags, listdir, message_box.
  repeat first [apply save_single_keeps_selection
               | apply keeps_for_each; intro | keeps_step].
Qed.

Lemma auto_fetch_keeps_selection : keeps selection auto_fetch_info.
Proof.
  unfold auto_fetch_info, auto_fetch_try, requests_get, message_box, setText.
  keeps_auto.
Qed.

Lemma fetch_art_keeps_selection : keeps selection fetch_album_art.
Proof.
  unfold fetch_album_art, fetch_album_art_try, requests_get, message_box.
  keeps_auto.
Qed.

Lemma clear_fields_keeps_selection : keeps selection clear_fields.
Proof. unfold clear_fields. keeps_auto. Qed.

(** After [load_single_file] the file is the target, after
    [load_folder_path] the folder, whatever the load of the tags does. *)
Lemma load_single_file_target (path : string) (st : St) :
  current_file (load_single_file path st).2.1 = Some path /\
  current_folder (load_single_file path st).2.1 = None /\
  id3_version (load_single_file path st).2.1 = id3_version st.1.
Proof.
  destruct st as [a w].
  set (a2 := set_current_folder None (set_current_file (Some path) a)).
  change (load_single_file path (a, w)) with
    ((load_tags ;;; modify_self (set_btn_auto_fetch true) ;;;
      modify_self (set_status_label (StatusLoaded (OsPath.basename path)))) (a2, w)).
  assert (keeps selection
            (load_tags ;;; modify_self (set_btn_auto_fetch true) ;;;
             modify_self (set_status_label (StatusLoaded (OsPath.basename path)))))
    as Hk by (repeat first [apply load_tags_keeps_selection | keeps_step]).
  specialize (Hk (a2, w)). unfold selection in Hk. simpl in Hk.
  by injection Hk as -> -> ->.
Qed.

Lemma load_folder_path_target (path : string) (st : St) :
  current_folder (load_folder_path path st).2.1 = Some path /\
  current_file (load_folder_path path st).2.1 = None /\
  id3_version (load_folder_path path st).2.1 = id3_version st.1.
Proof. by destruct st as [a w]. Qed.

Lemma load_first_mp3_target (paths : list string) (st : St) :
  one_target st.1 ->
  one_target (load_first_mp3 paths st).2.1 /\
  id3_version (load_first_mp3 paths st).2.1 = id3_version st.1.
Proof.
  intros H. induction paths as [|p ps IH]; simpl; [done|].
  unfold bind, world. simpl. destruct (is_mp3_file st.2 p); [|done].
  destruct (load_single_file_target p st) as (_ & Hf & Hv). split; [by right|done].
Qed.

Lemma dropEvent_target (urls : list QUrl) (st : St) :
  one_target st.1 ->
  one_target (dropEvent urls st).2.1 /\
  id3_version (dropEvent urls st).2.1 = id3_version st.1.
Proof.
  intros H. unfold dropEvent, bind, world.
  destruct (local_paths urls) as [|p [|p' ps]]; simpl; [done| |].
  - destruct (is_mp3_file st.2 p).
    + destruct (load_single_file_target p st) as (_ & Hf & Hv).
      split; [by right|done].
    + destruct (isdir st.2 p); [|done].
      destruct (load_folder_path_target p st) as (_ & Hf & Hv).
      split; [by left|done].
  - destruct (filter _ (p :: p' :: ps)) as [|first rest].
    + exact (load_first_mp3_target (p :: p' :: ps) st H).
    + destruct (load_folder_path_target (dirname first) st) as (_ & Hf & Hv).
      split; [by left|done].
Qed.

Lemma py_index_elem {A} (l : list A) (i : Z) (v : A) :
  py_index l i = Ok v -> v ∈ l.
Proof.
  unfold py_index, item. destruct (_ && _); [|done].
  destruct (l !! _) as [x|] eqn:E; [|done]. intros [= <-].
  by eapply list_elem_of_lookup_2.
Qed.

Lemma handler_invariant (x : action) (st : St) :
  one_target st.1 /\ version_selected st.1 ->
  one_target (handler x st).2.1 /\ version_selected (handler x st).2.1.
Proof.
  intros [Ht Hv].
  assert (forall m : M unit, keeps selection m ->
            one_target (m st).2.1 /\ version_selected (m st).2.1) as Hkeep.
  { intros m Hm. specialize (Hm st). unfold selection in Hm.
    injection Hm as H1 H2 H3. unfold one_target, version_selected.
    by rewrite H1, H2, H3. }
  destruct x as [p|p|urls|i| | |]; simpl.
  - unfold load_file. destruct (Py.truthy_str p); [|done].
    destruct (load_single_file_target p st) as (_ & Hf & Hver).
    split; [by right|]. unfold version_selected. by rewrite Hver.
  - unfold load_folder. destruct (Py.truthy_str p); [|done].
    destruct (load_folder_path_target p st) as (_ & Hf & Hver).
    split; [by left|]. unfold version_selected. by rewrite Hver.
  - destruct (dropEvent_target urls st Ht) as [H1 H2].
    split; [done|]. unfold version_selected. by rewrite H2.
  - unfold on_id3_version_change, bind, lift, modify_self.
    destruct (py_index [1; 3; 4] i) as [v|e] eqn:E; simpl; [|done].
    split; [done|]. apply py_index_elem in E. unfold version_selected. simpl.
    repeat (apply elem_of_cons in E as [->|E]; [auto|]). by apply elem_of_nil in E.
  - apply Hkeep, auto_fetch_keeps_selection.
  - apply Hkeep, fetch_art_keeps_selection.
  - apply Hkeep, save_tags_keeps_selection.
Qed.

(** X5. In every session, whatever the user chooses, drops, fetches or
    saves and however each action ends, at most one target is set (a file
    or a folder, never both) and the selected version is 1, 3 or 4. *)
Theorem session_invariant (actions : list action) (w : World) :
  one_target (session actions (init, w)).1 /\
  version_selected (session actions (init, w)).1.
Proof.
  assert (forall st, one_target st.1 /\ version_selected st.1 ->
            one_target (session actions st).1 /\
            version_selected (session actions st).1) as H.
  { induction actions as [|x xs IH]; intros st Hst; [done|].
    simpl. apply IH. by apply handler_invariant. }
  apply H. split; [by left|]. right; left. reflexivity.
Qed.

(** ** The picture frame *)

Lemma bytes_startswith_spec (p data : list Byte.byte) :
  bytes_startswith p data = true <-> exists rest, data = p ++ rest.
Proof.
  revert data. induction p as [|b p IH]; intros data; simpl.
  - split; [by exists data|done].
  - destruct data as [|d data]; [split; [done|by intros [rest H]]|].
    rewrite andb_true_iff, IH. split.
    + intros [Hb [rest ->]]. apply Byte.byte_dec_bl in Hb as ->. by exists rest.
    + intros [rest [= -> ->]]. split; [apply Byte.byte_dec_lb; reflexivity|by exists rest].
Qed.

(** X6. The picture frame written for a cover has type 3, description
    "Cover" and the cover bytes as data; its mime type is image/png when
    the bytes start with the eight bytes of the PNG signature and image/jpeg
    for any other bytes. *)
Theorem cover_mime (data : list Byte.byte) :
  exists mime,
    cover_frame data = Mutagen.APIC 3 mime 3 "Cover" data /\
    ((exists rest, data = png_signature ++ rest) -> mime = "image/png") /\
    ((forall rest, data <> png_signature ++ rest) -> mime = "image/jpeg").
Proof.
  unfold cover_frame.
  destruct (bytes_startswith png_signature data) eqn:E.
  - exists "image/png". split; [done|]. split; [done|]. intros Hno.
    apply bytes_startswith_spec in E as [rest ->]. by destruct (Hno rest).
  - exists "image/jpeg". split; [done|]. split; [|done]. intros Hex.
    apply bytes_startswith_spec in Hex. congruence.
Qed.

Lemma cover_mime_witness :
  cover_frame png_cover = Mutagen.APIC 3 "image/png" 3 "Cover" png_cover /\
  cover_frame [Byte.xff; Byte.xd8]
    = Mutagen.APIC 3 "image/jpeg" 3 "Cover" [Byte.xff; Byte.xd8].
Proof.
  split.
  - destruct (cover_mime png_cover) as (mime & -> & Hpng & _).
    rewrite Hpng; [reflexivity|]. by exists [Byte.x00; Byte.x2a].
  - destruct (cover_mime [Byte.xff; Byte.xd8]) as (mime & -> & _ & Hjpg).
    rewrite Hjpg; [reflexivity|]. intros rest H. discriminate H.
Defined.

(** X7. A write that goes through leaves every frame of another kind
    (comments, lyrics, user text, ...) in the file exactly as it was. *)
Theorem write_keeps_other_frames (a : AutoTagger) (w : World) (path : string)
    (t : Mutagen.ID3) (sv : option (Z * Z)) (suppress_reload : bool) (k : string) :
  fs w !! path = Some (Audio (Some t) None sv) ->
  version_selected a ->
  unmanaged k ->
  exists t', tags_of (run (_save_single_file path suppress_reload) (a, w)).2 path
               = Some t' /\ t' !! k = t !! k.
Proof.
  intros Hf Hv Hk. exists (retag a t).
  split; [by apply (saved_after_write _ _ _ _ _ _ Hf Hv)|].
  by apply retag_unmanaged.
Qed.

Lemma write_keeps_other_frames_witness :
  exists t', tags_of (run (_save_single_file "/m/a.mp3" true)
                        (full_window, commented_file)).2 "/m/a.mp3" = Some t' /\
             t' !! "COMM::eng" = Some (Mutagen.OtherFrame "COMM::eng" [Byte.x68; Byte.x69]) /\
             t' !! "TPE1" = Some (Mutagen.TPE1 3 "Artist") /\
             t' !! "APIC:Back" = None.
Proof.
  assert (unmanaged "COMM::eng") as Hk by (repeat constructor; discriminate).
  destruct (write_keeps_other_frames full_window commented_file "/m/a.mp3"
              commented None true "COMM::eng" eq_refl
              ltac:(right; left; reflexivity) Hk) as (t' & Ht & Hc).
  exists t'. split; [exact Ht|]. split; [rewrite Hc; reflexivity|].
  assert (t' = retag full_window commented) as ->.
  { assert (tags_of (run (_save_single_file "/m/a.mp3" true)
                       (full_window, commented_file)).2 "/m/a.mp3"
            = Some (retag full_window commented)) as H by (vm_compute; reflexivity).
    congruence. }
  split; vm_compute; reflexivity.
Defined.

(** ** Saving the loaded file *)

(** In single-file mode a save is the write followed by a read. *)
Lemma save_single_then_reload (a : AutoTagger) (w : World) path t sv :
  current_file a = Some path ->
  fs w !! path = Some (Audio (Some t) None sv) ->
  version_selected a ->
  _save_single_file path false (a, w) = load_tags (a, written_world a w path t).
Proof.
  intros Hc Hf Hv.
  unfold _save_single_file, try_except_cls, try_except, MP3, save, bind,
    world, self, lift, ret, modify_world. simpl. rewrite Hf. simpl. rewrite Hf.
  assert ((((if negb (id3_version a =? 1) then id3_version a else 3) =? 3) ||
           ((if negb (id3_version a =? 1) then id3_version a else 3) =? 4))
          = true) as -> by (by destruct Hv as [-> | [-> | ->]]).
  simpl. rewrite Hc. by rewrite bool_decide_eq_true_2.
Qed.

Lemma retag_no_bare_picture (a : AutoTagger) (t : Mutagen.ID3) :
  t !! "APIC" = None -> retag a t !! "APIC" = None.
Proof.
  intros Ht. unfold retag. cbv zeta. rewrite cover_lookup_text by done.
  rewrite !add_if_lookup_ne by done.
  destruct (cleared t !! "APIC") eqn:E; [|done].
  apply cleared_lookup_Some in E. congruence.
Qed.

Lemma load_written (a a0 : AutoTagger) (w : World) path t l s :
  current_file a0 = Some path -> path <> EmptyString ->
  fs w !! path = Some (Audio (Some (retag a t)) l s) ->
  t !! "APIC" = None ->
  (load_tags (a0, w)).1 = Ok tt /\
  reads_back a (load_tags (a0, w)).2.1 /\
  album_art_bytes (load_tags (a0, w)).2.1 = None /\
  art_label (load_tags (a0, w)).2.1 = NoAlbumArt /\
  (load_tags (a0, w)).2.2 = w /\
  selection (load_tags (a0, w)).2 = selection (a0, w).
Proof.
  intros Hc Hp Hf Ht.
  pose proof (retag_written_text a t) as Hw.
  assert (forall kfm, kfm ∈ text_fields ->
            get_tag {| filename := path; tags := Some (retag a t) |} kfm.1.1
              = Ok (read_back kfm.1.1 (kfm.1.2 a))) as Hg
    by (intros; by apply get_tag_written).
  pose proof (Hg ("TPE1", artist_edit, Mutagen.TPE1) ltac:(set_solver)) as H1.
  pose proof (Hg ("TALB", album_edit, Mutagen.TALB) ltac:(set_solver)) as H2.
  pose proof (Hg ("TIT2", title_edit, Mutagen.TIT2) ltac:(set_solver)) as H3.
  pose proof (Hg ("TDRC", year_edit, Mutagen.TDRC) ltac:(set_solver)) as H4.
  pose proof (Hg ("TRCK", track_edit, Mutagen.TRCK) ltac:(set_solver)) as H5.
  pose proof (Hg ("TCON", genre_edit, Mutagen.TCON) ltac:(set_solver)) as H6.
  cbn [fst snd] in H1, H2, H3, H4, H5, H6.
  pose proof (retag_written_cover a t Ht "APIC:" eq_refl) as Hnone.
  rewrite decide_False in Hnone by done.
  unfold load_tags, try_except, MP3, bind, world, self, lift, ret, modify_self.
  simpl. rewrite Hc. destruct path as [|c path]; [done|]. simpl. rewrite Hf.
  simpl. rewrite H1, H2, H3, H4, H5, H6. simpl.
  unfold audio_get. cbn [tags]. rewrite Hnone. simpl.
  split; [done|]. split; [by repeat constructor|]. by repeat split.
Qed.


(** In single-file mode, a save that goes through is the write, the read
    of the written file and the status line. *)
Lemma save_tags_single (a : AutoTagger) (w : World) (path : string)
    (t : Mutagen.ID3) (sv : option (Z * Z)) :
  current_file a = Some path -> path <> EmptyString ->
  fs w !! path = Some (Audio (Some t) None sv) ->
  version_selected a -> t !! "APIC" = None ->
  run save_tags (a, w) =
    (set_status_label StatusTagsSaved
       (load_tags (a, written_world a w path t)).2.1,
     written_world a w path t).
Proof.
  intros Hc Hp Hf Hv Ht.
  assert (fs (written_world a w path t) !! path
          = Some (Audio (Some (retag a t)) None (Some (save_arguments a)))) as Hf'
    by (unfold written_world; simpl; apply lookup_insert_eq).
  destruct (load_written a a (written_world a w path t) path t _ _ Hc Hp Hf' Ht)
    as (Hok & _ & _ & _ & Hw & _).
  unfold run, save_tags, bind, self, modify_self. simpl.
  rewrite Hc. destruct path as [|c path]; [done|]. simpl.
  rewrite (save_single_then_reload a w _ t sv Hc Hf Hv).
  destruct (load_tags (a, written_world a w (String c path) t)) as [[[]|e] [a1 w1]];
    simpl in *; [|done].
  by rewrite Hw.
Qed.



(** X9. Saving the loaded file twice in a row leaves the file without any
    picture frame, whatever cover the window held at the first save: the
    first save stores the cover and the read that follows it drops it from
    the window, so the second save clears the picture and adds none. *)
Theorem second_save_drops_picture (a : AutoTagger) (w : World) (path : string)
    (t : Mutagen.ID3) (sv : option (Z * Z)) :
  current_file a = Some path -> path <> EmptyString ->
  fs w !! path = Some (Audio (Some t) None sv) ->
  version_selected a -> t !! "APIC" = None ->
  (exists t1, tags_of (run save_tags (a, w)).2 path = Some t1 /\
              t1 !! "APIC:Cover" = cover_of a) /\
  (exists t2, tags_of (run save_tags (run save_tags (a, w))).2 path = Some t2 /\
              no_picture t2).
Proof.
  intros Hc Hp Hf Hv Ht.
  assert (fs (written_world a w path t) !! path
          = Some (Audio (Some (retag a t)) None (Some (save_arguments a)))) as Hf1
    by (unfold written_world; simpl; apply lookup_insert_eq).
  destruct (load_written a a (written_world a w path t) path t _ _ Hc Hp Hf1 Ht)
    as (_ & _ & Hb & _ & _ & Hs).
  rewrite (save_tags_single a w path t sv Hc Hp Hf Hv Ht).
  set (w1 := written_world a w path t) in *.
  set (a1 := set_status_label StatusTagsSaved (load_tags (a, w1)).2.1).
  unfold selection in Hs. simpl in Hs. injection Hs as Hc1 _ Hv1.
  change (current_file a1 = current_file a) in Hc1.
  change (id3_version a1 = id3_version a) in Hv1.
  change (album_art_bytes a1 = None) in Hb.
  split.
  - exists (retag a t). split; [unfold tags_of; cbn [snd]; by rewrite Hf1|].
    pose proof (retag_written_cover a t Ht "APIC:Cover" eq_refl) as H.
    by rewrite decide_True in H.
  - rewrite (save_tags_single a1 w1 path (retag a t) _
               ltac:(by rewrite Hc1) Hp Hf1).
    2: { unfold version_selected. by rewrite Hv1. }
    2: { by apply retag_no_bare_picture. }
    exists (retag a1 (retag a t)). split.
    + unfold tags_of, written_world. cbn [snd fs set_fs].
      by rewrite lookup_insert_eq.
    + intros k Hk.
      rewrite (retag_written_cover a1 (retag a t)
                 (retag_no_bare_picture a t Ht) k Hk).
      unfold cover_of. rewrite Hb. by destruct (decide _).
Qed.

Lemma second_save_drops_picture_witness :
  (exists t1, tags_of (run save_tags (full_window, one_file)).2 "/m/a.mp3" = Some t1 /\
              t1 !! "APIC:Cover" = Some (cover_frame png_cover)) /\
  (exists t2, tags_of (run save_tags (run save_tags (full_window, one_file))).2
                "/m/a.mp3" = Some t2 /\
              t2 !! "APIC:Cover" = None).
Proof.
  assert (fs one_file !! "/m/a.mp3" = Some (Audio (Some ∅) None None)) as Hf
    by (vm_compute; reflexivity).
  destruct (second_save_drops_picture full_window one_file "/m/a.mp3" ∅ None
              eq_refl ltac:(discriminate) Hf ltac:(right; left; reflexivity) eq_refl)
    as ((t1 & H1 & Hc1) & (t2 & H2 & Hn)).
  split.
  - exists t1. split; [exact H1|]. rewrite Hc1. reflexivity.
  - exists t2. split; [exact H2|]. apply Hn. reflexivity.
Defined.

(** X10. Saving a loaded file that cannot be opened (missing, or not
    readable by the tag library) shows no box and changes no file: a line
    is printed, and the status line all the same reads "Tags saved". *)
Theorem save_unreadable_file (a : AutoTagger) (w : World) (path msg : string) :
  current_file a = Some path -> path <> EmptyString ->
  unreadable w path msg ->
  save_tags (a, w) =
    (Ok tt, (set_status_label StatusTagsSaved a,
             set_stdout (SkipLine path msg :: stdout w) w)).
Proof.
  intros Hc Hp Hu.
  unfold save_tags, _save_single_file, try_except_cls, try_except, MP3, print,
    bind, world, self, lift, ret, raise, modify_self, modify_world. simpl.
  rewrite Hc. destruct path as [|c path]; [done|]. simpl.
  destruct Hu as [[Hf ->] | (e & Hf & ->)]; rewrite Hf; simpl; [done|].
  destruct (decide (exn_cls e = ID3NoHeaderError)); simpl; [|done].
  by rewrite Hf.
Qed.

Lemma save_unreadable_file_witness :
  let st := run save_tags (edited_window, empty_world) in
  dialogs st.2 = [] /\ fs st.2 = ∅ /\
  stdout st.2 = [SkipLine "/m/a.mp3" "[Errno 2] No such file or directory"] /\
  status_label st.1 = StatusTagsSaved.
Proof.
  intros st. subst st. unfold run.
  rewrite (save_unreadable_file edited_window empty_world "/m/a.mp3"
             "[Errno 2] No such file or directory" eq_refl ltac:(discriminate)
             ltac:(left; split; reflexivity)).
  repeat split; reflexivity.
Defined.

(** A read that goes through: the window takes the six texts and the
    cover of the file; target, version, status and world stay. *)
Lemma load_tags_ok (a : AutoTagger) (w : World) path t l s vs :
  current_file a = Some path -> path <> EmptyString ->
  fs w !! path = Some (Audio t l s) ->
  reads_as {| filename := path; tags := t |} vs ->
  exists a', load_tags (a, w) = (Ok tt, (a', w)) /\
             texts a' = vs /\
             album_art_bytes a' = stored_cover {| filename := path; tags := t |} /\
             selection (a', w) = selection (a, w) /\
             status_label a' = status_label a.
Proof.
  intros Hc Hp Hf [Hs Hpic].
  destruct vs as [|v1 [|v2 [|v3 [|v4 [|v5 [|v6 [|]]]]]]]; try done.
  injection Hs as H1 H2 H3 H4 H5 H6.
  unfold load_tags, try_except, MP3, bind, world, self, lift, ret, modify_self.
  simpl. rewrite Hc. destruct path as [|c path]; [done|]. simpl. rewrite Hf.
  simpl. rewrite H1, H2, H3, H4, H5, H6. simpl. unfold stored_cover.
  destruct (audio_get _ "APIC:") as [f|] eqn:E; simpl.
  - destruct (Hpic f eq_refl) as [data Hd]. rewrite Hd. simpl.
    eexists. split; [reflexivity|]. unfold texts, selection. simpl.
    rewrite ?Hc. destruct f; simpl in Hd; try discriminate.
    by injection Hd as <-.
  - eexists. split; [reflexivity|]. unfold texts, selection. simpl.
    by rewrite ?Hc.
Qed.

(** X11. Saving a loaded file whose save fails (locked, disk full): the
    failure is shown in a "Save Error" box and the file stays as it was,
    but the read that follows replaces the six fields of the window by
    what the file holds, so the edits that could not be saved are gone from
    the window too; the status line reads "Tags saved". *)
Theorem failed_save_discards_edits (a : AutoTagger) (w : World) (path : string)
    (t : Mutagen.ID3) (e : exn) (sv : option (Z * Z)) (vs : list string) :
  current_file a = Some path -> path <> EmptyString ->
  fs w !! path = Some (Audio (Some t) (Some e) sv) ->
  reads_as {| filename := path; tags := Some t |} vs ->
  let st := run save_tags (a, w) in
  texts st.1 = vs /\
  st.2 = shown (save_error path e) w /\
  status_label st.1 = StatusTagsSaved.
Proof.
  intros Hc Hp Hf Hs st.
  destruct (load_tags_ok a (shown (save_error path e) w) path (Some t) _ _ vs
              Hc Hp Hf Hs) as (a' & Hl & Ht & _).
  subst st. unfold run, save_tags, _save_single_file, try_except_cls, try_except,
    MP3, save, message_box, bind, world, self, lift, ret, raise, modify_self,
    modify_world. simpl.
  rewrite Hc. destruct path as [|c path]; [done|]. simpl. rewrite Hf. simpl.
  rewrite Hf. simpl. rewrite Hc, bool_decide_eq_true_2 by done. simpl.
  unfold shown, save_error in Hl. rewrite Hl. simpl. done.
Qed.

Lemma failed_save_discards_edits_witness :
  let st := run save_tags (edited_window, locked_file) in
  artist_edit edited_window = "New artist" /\
  texts st.1 = ["Old artist"; ""; ""; ""; ""; ""] /\
  dialogs st.2 = [save_error "/m/a.mp3" locked_error] /\
  fs st.2 = fs locked_file.
Proof.
  intros st.
  assert (fs locked_file !! "/m/a.mp3"
          = Some (Audio (Some {[ "TPE1" := Mutagen.TPE1 3 "Old artist" ]})
                        (Some locked_error) None)) as Hf by (vm_compute; reflexivity).
  destruct (failed_save_discards_edits edited_window locked_file "/m/a.mp3" _ _ _
              ["Old artist"; ""; ""; ""; ""; ""] eq_refl ltac:(discriminate) Hf)
    as (Ht & Hw & _).
  { split; [vm_compute; reflexivity|]. intros f Hfr. vm_compute in Hfr. discriminate. }
  split; [reflexivity|]. split; [exact Ht|]. subst st. rewrite Hw.
  split; reflexivity.
Defined.

(** X12. A read of a file that cannot be opened shows the "Error" box and
    leaves the window as it was, the texts of the previous file included; a
    read of a file without an ID3 header (and of one with an empty
    container) empties the six fields and the cover, without a box. *)
Theorem load_tags_edge_cases (a : AutoTagger) (w : World) (path : string) :
  current_file a = Some path -> path <> EmptyString ->
  (forall msg, unreadable w path msg ->
     load_tags (a, w) = (Ok tt, (a, shown (read_error_box msg) w))) /\
  (forall l s t, fs w !! path = Some (Audio t l s) -> t = None \/ t = Some ∅ ->
     exists a', load_tags (a, w) = (Ok tt, (a', w)) /\
                texts a' = [""; ""; ""; ""; ""; ""] /\
                album_art_bytes a' = None /\ art_label a' = NoAlbumArt).
Proof.
  intros Hc Hp. split.
  - intros msg Hu.
    unfold load_tags, try_except, MP3, message_box, bind, world, self, lift, ret,
      raise, modify_world. simpl. rewrite Hc.
    destruct path as [|c path]; [done|]. simpl.
    by destruct Hu as [[Hf ->] | (e & Hf & ->)]; rewrite Hf.
  - intros l s t Hf Ht.
    unfold load_tags, try_except, MP3, bind, world, self, lift, ret, modify_self.
    simpl. rewrite Hc. destruct path as [|c path]; [done|]. simpl. rewrite Hf.
    destruct Ht as [-> | ->]; simpl; eexists; (split; [reflexivity|]); done.
Qed.

Lemma load_tags_edge_cases_witness :
  load_tags (full_window, empty_world)
    = (Ok tt, (full_window,
               shown (read_error_box "[Errno 2] No such file or directory") empty_world)) /\
  texts (run load_tags (full_window, bare_file)).1 = [""; ""; ""; ""; ""; ""] /\
  album_art_bytes (run load_tags (full_window, bare_file)).1 = None.
Proof.
  destruct (load_tags_edge_cases full_window empty_world "/m/a.mp3" eq_refl
              ltac:(discriminate)) as [H1 _].
  destruct (load_tags_edge_cases full_window bare_file "/m/a.mp3" eq_refl
              ltac:(discriminate)) as [_ H2].
  split; [apply H1; left; split; reflexivity|].
  destruct (H2 None None None ltac:(vm_compute; reflexivity) ltac:(by left))
    as (a' & Hl & Ht & Hb & _).
  unfold run. rewrite Hl. split; [exact Ht|exact Hb].
Defined.

(** ** What the lookups write *)

(** X13. A recording search that is answered with a recording which has a
    title, and a first release with a title and a date starting with four
    digits: the artist becomes the name of the first credit (the artist
    searched for when the recording has no credits), the title and the
    album those of the recording and of its first release, the year the
    four digits; track number and genre stay; one request was made and no
    box is shown. *)
Theorem recording_found (a : AutoTagger) (w : World) (artist title : string)
    (r : response) (rest : list http_result)
    (members rec release : list (string * json)) (more more' : list json)
    (name song album date year : string) :
  can_search_recording a artist title ->
  net w = Responds r :: rest -> decoded r = Ok (JObj members) ->
  PyVal.lookup "recordings" members = Some (JArr (JObj rec :: more)) ->
  PyVal.lookup "title" rec = Some (JStr song) ->
  credited rec artist name ->
  PyVal.lookup "releases" rec = Some (JArr (JObj release :: more')) ->
  PyVal.lookup "title" release = Some (JStr album) ->
  PyVal.lookup "date" release = Some (JStr date) ->
  leading_year date year ->
  exists a',
    auto_fetch_info (a, w) =
      (Ok tt, (a', answered (RecordingSearch (recording_query artist title)) rest w)) /\
    texts a' = [name; album; song; year; track_edit a; genre_edit a] /\
    status_label a' = StatusAutoFetched /\
    album_art_bytes a' = album_art_bytes a /\
    selection (a', w) = selection (a, w).
Proof.
  intros (Hc & Ht & Ha & Hti) Hn Hd Hrecs Hsong Hcred Hrels Halbum Hdate Hyear.
  apply match_year_leading in Hyear.
  assert (credited_artist (JObj rec) artist = Ok (JStr name)) as Hca.
  { unfold credited_artist. simpl.
    destruct Hcred as [(credit & mo & H1 & H2) | [H1 ->]].
    - rewrite H1. simpl. by rewrite H2.
    - by rewrite H1. }
  assert (from_release (JObj rec) (JStr (album_edit a)) (JStr (year_edit a))
          = Ok (JStr album, JStr year)) as Hfr.
  { unfold from_release. simpl. rewrite Hrels. simpl. rewrite Halbum, Hdate. simpl.
    rewrite ?bool_decide_eq_true_2 by eauto. simpl. by rewrite Hyear. }
  unfold auto_fetch_info, auto_fetch_try, requests_get, message_box, setText,
    try_except, bind, self, world, lift, ret, raise, modify_self, modify_world.
  simpl. rewrite Hc, Ht. simpl.
  destruct artist; [done|]. destruct title; [done|]. simpl.
  rewrite Hn. simpl. rewrite Hd. simpl. rewrite Hrecs. simpl.
  rewrite Hca. simpl. rewrite Hsong, Hrels. simpl. rewrite Hfr. simpl.
  eexists. split; [reflexivity|]. done.
Qed.

Lemma recording_found_witness :
  texts (run auto_fetch_info (tagged_window, found full_recording)).1
    = ["The Band"; "LP"; "Song"; "1971"; "7"; ""] /\
  requests (run auto_fetch_info (tagged_window, found full_recording)).2
    = [RecordingSearch (recording_query "Artist" "Title")].
Proof.
  assert (can_search_recording tagged_window "Artist" "Title") as Hrec.
  { repeat split; [by vm_compute..|discriminate|discriminate]. }
  destruct (recording_found tagged_window (found full_recording) "Artist" "Title"
              _ [] _ _ _ _ _ "The Band" "Song" "LP" "1971-11-08" "1971"
              Hrec eq_refl eq_refl eq_refl eq_refl
              ltac:(left; eexists _, _; split; reflexivity)
              eq_refl eq_refl eq_refl)
    as (a' & Hrun & Ht & _).
  { exists "-11-08". split; [reflexivity|]. split; [reflexivity|].
    intros [|[|[|[|i]]]] c H; simpl in H; try discriminate;
      injection H as <-; reflexivity. }
  unfold run. rewrite Hrun. split; [exact Ht|reflexivity].
Defined.

(** X14. A cover fetch whose release search names a release and whose
    cover request is answered with status 200: the window holds the body of
    the answer as cover and shows it; the texts stay; two requests were
    made, the second for the identifier of the first release, and no box is
    shown.  A write that follows stores these bytes in the picture frame
    (none when the body is empty). *)
Theorem cover_found (a : AutoTagger) (w : World) (artist album : string)
    (r img : response) (rest : list http_result) (data rels rel mbid : json) :
  can_search_cover a artist album ->
  net w = Responds r :: Responds img :: rest -> decoded r = Ok data ->
  PyVal.getitem data "releases" = Ok rels -> PyVal.truthy rels = true ->
  PyVal.getitem0 rels = Ok rel -> PyVal.getitem rel "id" = Ok mbid ->
  status_code img = 200 ->
  exists a',
    fetch_album_art (a, w) =
      (Ok tt, (a', answered (CoverArtFront mbid) rest
                     (answered (ReleaseSearch (release_query album artist))
                               (Responds img :: rest) w))) /\
    album_art_bytes a' = Some (content img) /\
    art_label a' = Pixmap (content img) /\
    status_label a' = StatusArtFetched /\
    texts a' = texts a /\
    selection (a', w) = selection (a, w) /\
    forall t, t !! "APIC" = None ->
              retag a' t !! "APIC:Cover" =
                match content img with
                | [] => None
                | _ => Some (cover_frame (content img))
                end.
Proof.
  intros (Hc & -> & -> & Ha & Hal) Hn Hd Hg Hr H0 Hid Hs.
  unfold fetch_album_art, fetch_album_art_try, requests_get, message_box,
    try_except, bind, self, world, lift, ret, raise, modify_self, modify_world.
  simpl. rewrite Hc.
  destruct (Py.strip (artist_edit a)); [done|].
  destruct (Py.strip (album_edit a)); [done|]. simpl.
  rewrite Hn. simpl. rewrite Hd, (getitem_get _ _ _ Hg), Hr. simpl.
  rewrite Hg, H0, Hid. simpl. rewrite Hs. simpl.
  eexists. split; [reflexivity|]. repeat (split; [done|]).
  intros t Ht.
  match goal with |- retag ?x t !! _ = _ =>
    pose proof (retag_written_cover x t Ht "APIC:Cover" eq_refl) as H end.
  rewrite decide_True in H by done. rewrite H. unfold cover_of. simpl.
  by destruct (content img).
Qed.

Lemma cover_found_witness :
  let st := run fetch_album_art
              (album_window, online [one_release; image_response 200 png_cover]) in
  album_art_bytes st.1 = Some png_cover /\
  requests st.2 = [CoverArtFront (JStr "mbid-1");
                   ReleaseSearch (release_query "Album" "Artist")] /\
  retag st.1 ∅ !! "APIC:Cover" = Some (cover_frame png_cover).
Proof.
  intros st.
  assert (can_search_cover album_window "Artist" "Album") as Hcov.
  { repeat split; [by vm_compute..|discriminate|discriminate]. }
  destruct (cover_found album_window
              (online [one_release; image_response 200 png_cover])
              "Artist" "Album" _ _ [] _ _ _ (JStr "mbid-1") Hcov eq_refl eq_refl
              eq_refl eq_refl eq_refl eq_refl eq_refl)
    as (a' & Hrun & Hb & _ & _ & _ & _ & Hw).
  subst st. unfold run. rewrite Hrun. split; [exact Hb|]. split; [reflexivity|].
  exact (Hw ∅ eq_refl).
Defined.

(** ** The year, written and read *)

Section Year.

Local Open Scope nat_scope.

Lemma append_empty_r (s : string) : s +:+ EmptyString = s.
Proof. induction s as [|c s IH]; [done|]. by rewrite append_cons, IH. Qed.

Lemma append_assoc (a b c : string) : (a +:+ b) +:+ c = a +:+ (b +:+ c).
Proof. induction a as [|x a IH]; [done|]. by rewrite !append_cons, IH. Qed.

Lemma rev_app_rev_app (s a b : string) :
  String.rev_app (String.rev_app s a) b = String.rev_app a (s +:+ b).
Proof.
  revert a b. induction s as [|c s IH]; intros a b; [done|].
  simpl. rewrite IH. by rewrite append_cons.
Qed.

Lemma rev_rev_app (s : string) : String.rev (String.rev_app s EmptyString) = s.
Proof. unfold String.rev. by rewrite rev_app_rev_app, append_empty_r. Qed.

Lemma isdigit_cases (c : ascii) : Py.isdigit c = true -> c ∈ digit_chars.
Proof.
  intros H. destruct c as [[] [] [] [] [] [] [] []]; vm_compute in H;
    try discriminate H; clear H;
    apply (bool_decide_unpack _); vm_compute; exact I.
Qed.

Lemma digit_is_plain (c : ascii) :
  Py.isdigit c = true -> Mutagen.is_stamp_sep c = false /\ Py.isspace c = false.
Proof.
  intros H%isdigit_cases. unfold digit_chars in H.
  repeat (apply elem_of_cons in H as [->|H]; [by vm_compute|]).
  by apply elem_of_nil in H.
Qed.

Lemma all_digits_cons (c : ascii) (y : string) :
  all_digits (String c y) -> Py.isdigit c = true /\ all_digits y.
Proof.
  intros H. split; [exact (H 0 c eq_refl)|].
  intros i d Hd. exact (H (S i) d Hd).
Qed.

(** A run of digits is read into the piece at hand. *)
Lemma stamp_split_digits (y cur s : string) :
  all_digits y ->
  Mutagen.stamp_split false cur (y +:+ s)
    = Mutagen.stamp_split false (String.rev_app y cur) s.
Proof.
  revert cur. induction y as [|c y IH]; intros cur Hd; [done|].
  apply all_digits_cons in Hd as [Hc Hd].
  destruct (digit_is_plain c Hc) as [H1 H2].
  rewrite append_cons. simpl. rewrite H1, H2. by apply IH.
Qed.

(** The piece at hand ends at the end of the text and at a separator. *)
Lemma stamp_split_tail (cur rest : string) :
  date_tail rest ->
  nth 0 (Mutagen.stamp_split false cur (rest +:+ ":::::")) EmptyString
    = String.rev cur.
Proof.
  intros [-> | (c & r & -> & Hc)]; [done|].
  rewrite append_cons. simpl.
  destruct (Mutagen.is_stamp_sep c); [done|].
  destruct Hc as [Hc|Hc]; [done|]. by rewrite Hc.
Qed.

Lemma year_prints_back_all : all_years_print_back = true.
Proof. vm_compute. reflexivity. Qed.

Lemma four_digits_print_back (y : string) :
  Py.len y = 4 -> all_digits y ->
  exists n, Mutagen.int y = Some n /\ Mutagen.zero_pad 4 n = y.
Proof.
  intros Hl Hd.
  destruct y as [|c1 [|c2 [|c3 [|c4 [|]]]]]; try discriminate Hl.
  apply all_digits_cons in Hd as [H1 Hd]. apply all_digits_cons in Hd as [H2 Hd].
  apply all_digits_cons in Hd as [H3 Hd]. apply all_digits_cons in Hd as [H4 _].
  apply isdigit_cases, list_elem_of_In in H1, H2, H3, H4.
  pose proof year_prints_back_all as Hall. unfold all_years_print_back in Hall.
  rewrite forallb_forall in Hall. specialize (Hall c1 H1).
  rewrite forallb_forall in Hall. specialize (Hall c2 H2).
  rewrite forallb_forall in Hall. specialize (Hall c3 H3).
  rewrite forallb_forall in Hall. specialize (Hall c4 H4).
  unfold year_prints_back in Hall.
  destruct (Mutagen.int _) as [n|]; [|done].
  exists n. split; [done|]. by apply bool_decide_eq_true_1 in Hall.
Qed.

Lemma take_str_append (y u : string) (k : nat) :
  Py.take_str (Py.len y + k) (y +:+ u) = y +:+ Py.take_str k u.
Proof. induction y as [|c y IH]; [done|]. rewrite append_cons. simpl. by rewrite IH. Qed.

Lemma stamp_pieces_cons (v : N) (w : nat) (sep : string)
    (rest : list (option N * nat * string)) :
  Mutagen.stamp_pieces ((Some v, w, sep) :: rest)
    = Mutagen.zero_pad w v +:+ sep +:+ Mutagen.stamp_pieces rest.
Proof. reflexivity. Qed.

(** The text of a time stamp whose year prints as [y] starts with [y]. *)
Lemma stamp_text_year (t : Mutagen.ID3TimeStamp) (n : N) (y : string) :
  Mutagen.year t = Some n -> Mutagen.zero_pad 4 n = y -> Py.len y = 4 ->
  exists tail, Mutagen.stamp_text t = y +:+ tail.
Proof.
  intros Hy Hz Hl. unfold Mutagen.stamp_text. rewrite Hy.
  rewrite stamp_pieces_cons, Hz.
  match goal with |- context [Mutagen.stamp_pieces ?l] =>
    set (tl := Mutagen.stamp_pieces l) end.
  cbv zeta. rewrite !len_append, Hl. simpl Py.len.
  replace (4 + (1 + Py.len tl) - 1) with (Py.len y + Py.len tl) by lia.
  rewrite take_str_append. eauto.
Qed.

Lemma read_back_date (y rest : string) :
  Py.len y = 4 -> all_digits y -> date_tail rest ->
  read_back "TDRC" (y +:+ rest) = y.
Proof.
  intros Hl Hd Ht.
  destruct (four_digits_print_back y Hl Hd) as (n & Hint & Hpad).
  assert (Mutagen.year (Mutagen.stamp_of_text (y +:+ rest)) = Some n) as Hy.
  { unfold Mutagen.stamp_of_text. cbn [Mutagen.year].
    rewrite append_assoc, stamp_split_digits by done.
    by rewrite stamp_split_tail, rev_rev_app. }
  destruct (stamp_text_year _ n y Hy Hpad Hl) as [tail Htxt].
  unfold read_back.
  assert (Py.truthy_str (y +:+ rest) = true) as ->
    by (by destruct y; [discriminate Hl|]).
  rewrite decide_True by done. cbv zeta. rewrite Htxt.
  rewrite (match_year_leading (y +:+ tail) y); [done|]. by exists tail.
Qed.

Lemma int_not_a_number (c : ascii) (q : string) :
  Py.isdigit c = false -> c <> "+"%char -> Mutagen.int (String c q) = None.
Proof.
  intros Hd Hp.
  assert (Mutagen.int (String c q) = Mutagen.int_digits false 0%N (String c q)) as ->.
  { destruct c as [[] [] [] [] [] [] [] []]; try reflexivity. by destruct Hp. }
  simpl. rewrite Hd. by destruct (decide (c = "_"%char)).
Qed.

(** The first piece of a text starts with what is at hand. *)
Lemma stamp_split_first (s cur : string) :
  exists q, nth 0 (Mutagen.stamp_split false cur s) EmptyString
            = String.rev_app cur q.
Proof.
  revert cur. induction s as [|c s IH]; intros cur; simpl.
  - by exists EmptyString.
  - destruct (Mutagen.is_stamp_sep c); [by exists EmptyString|].
    destruct (Py.isspace c); [by exists EmptyString|].
    destruct (IH (String c cur)) as [q Hq]. exists (String c q). by rewrite Hq.
Qed.

Lemma read_back_not_a_date (c : ascii) (x : string) :
  Py.isdigit c = false -> c <> "+"%char ->
  read_back "TDRC" (String c x) = EmptyString.
Proof.
  intros Hd Hp.
  assert (Mutagen.year (Mutagen.stamp_of_text (String c x)) = None) as Hy.
  { unfold Mutagen.stamp_of_text. cbn [Mutagen.year].
    rewrite append_cons. simpl.
    destruct (Mutagen.is_stamp_sep c); [done|].
    destruct (Py.isspace c); [done|].
    destruct (stamp_split_first (x +:+ ":::::") (String c EmptyString)) as [q ->].
    by apply int_not_a_number. }
  unfold read_back. simpl. unfold Mutagen.stamp_text. by rewrite Hy.
Qed.

End Year.

(** X15. A year that starts with four digits followed by nothing, by a
    separator of dates and times or by white space (as in 2003, 2003-05-12,
    2003/05) is read back, after a write that goes through, as these four
    digits. *)
Theorem date_year_round_trip (a a0 : AutoTagger) (w : World) (path : string)
    (t : Mutagen.ID3) (sv : option (Z * Z)) (suppress_reload : bool)
    (y rest : string) :
  fs w !! path = Some (Audio (Some t) None sv) -> version_selected a ->
  current_file a0 = Some path -> path <> EmptyString ->
  year_edit a = y +:+ rest -> Py.len y = 4%nat -> all_digits y -> date_tail rest ->
  year_edit (run load_tags
               (a0, (run (_save_single_file path suppress_reload) (a, w)).2)).1 = y.
Proof.
  intros Hf Hv Hc Hp Hy Hl Hd Ht.
  pose proof (write_then_read_text a a0 w path t sv suppress_reload Hf Hv Hc Hp)
    as Hr.
  unfold reads_back, text_fields in Hr.
  do 3 (apply Forall_cons_1 in Hr; destruct Hr as [_ Hr]).
  apply Forall_cons_1 in Hr. destruct Hr as [Hr _]. cbn [fst snd] in Hr.
  rewrite Hr, Hy. by apply read_back_date.
Qed.

Lemma date_year_round_trip_witness :
  year_edit full_window = "2003-05-12" /\
  year_edit (run load_tags
               (full_window,
                (run (_save_single_file "/m/a.mp3" true) (full_window, one_file)).2)).1
    = "2003".
Proof.
  split; [reflexivity|].
  assert (fs one_file !! "/m/a.mp3" = Some (Audio (Some ∅) None None)) as Hf
    by (vm_compute; reflexivity).
  apply (date_year_round_trip full_window full_window one_file "/m/a.mp3" ∅ None
           true "2003" "-05-12" Hf ltac:(right; left; reflexivity) eq_refl
           ltac:(discriminate) eq_refl eq_refl).
  - intros [|[|[|[|i]]]] c H; simpl in H; try discriminate;
      injection H as <-; reflexivity.
  - right. exists "-"%char, "05-12". split; [reflexivity|]. left. reflexivity.
Defined.

(** X16. A year that starts with anything but a digit or a plus sign
    (as in "circa 2003") is lost by a write: the time stamp made of it has
    no year, and the year read back is empty. *)
Theorem unparsed_year_lost (a a0 : AutoTagger) (w : World) (path : string)
    (t : Mutagen.ID3) (sv : option (Z * Z)) (suppress_reload : bool)
    (c : ascii) (x : string) :
  fs w !! path = Some (Audio (Some t) None sv) -> version_selected a ->
  current_file a0 = Some path -> path <> EmptyString ->
  year_edit a = String c x -> Py.isdigit c = false -> c <> "+"%char ->
  year_edit (run load_tags
               (a0, (run (_save_single_file path suppress_reload) (a, w)).2)).1
    = EmptyString.
Proof.
  intros Hf Hv Hc Hp Hy Hd Hplus.
  pose proof (write_then_read_text a a0 w path t sv suppress_reload Hf Hv Hc Hp)
    as Hr.
  unfold reads_back, text_fields in Hr.
  do 3 (apply Forall_cons_1 in Hr; destruct Hr as [_ Hr]).
  apply Forall_cons_1 in Hr. destruct Hr as [Hr _]. cbn [fst snd] in Hr.
  rewrite Hr, Hy. by apply read_back_not_a_date.
Qed.

Lemma unparsed_year_lost_witness :
  let a := set_year_edit "circa 2003" full_window in
  year_edit (run load_tags
               (a, (run (_save_single_file "/m/a.mp3" true) (a, one_file)).2)).1 = "".
Proof.
  intros a.
  assert (fs one_file !! "/m/a.mp3" = Some (Audio (Some ∅) None None)) as Hf
    by (vm_compute; reflexivity).
  exact (unparsed_year_lost a a one_file "/m/a.mp3" ∅ None true "c"%char "irca 2003"
           Hf ltac:(right; left; reflexivity) eq_refl ltac:(discriminate) eq_refl
           eq_refl ltac:(discriminate)).
Defined.

(** ** Drag and drop *)

Lemma load_first_mp3_none (paths : list string) (st : St) :
  (forall p, p ∈ paths -> is_mp3_file st.2 p = false) ->
  load_first_mp3 paths st = (Ok tt, st).
Proof.
  induction paths as [|p ps IH]; intros H; [done|].
  simpl. unfold bind, world. simpl. rewrite (H p) by left.
  apply IH. intros q Hq. apply H. by right.
Qed.

Lemma filter_nil_none {A} (P : A -> Prop) `{!forall x, Decision (P x)} (l : list A) :
  filter P l = [] -> forall x, x ∈ l -> ~ P x.
Proof.
  intros Hnil x Hx HP.
  assert (x ∈ filter P l) as Hin by (by apply list_elem_of_filter).
  rewrite Hnil in Hin. by apply elem_of_nil in Hin.
Qed.

(** X17. A drop of several local paths never loads a single file: when
    some of them are MP3 files the folder of the first of these becomes the
    target, and otherwise nothing changes (the loop that would load the
    first MP3 file is only reached when there is none). *)
Theorem drop_of_several (urls : list QUrl) (st : St) :
  (2 <= length (local_paths urls))%nat ->
  (exists first more,
      filter (fun p => is_mp3_file st.2 p = true) (local_paths urls)
        = first :: more /\
      dropEvent urls st = load_folder_path (dirname first) st /\
      current_file (run (dropEvent urls) st).1 = None /\
      current_folder (run (dropEvent urls) st).1 = Some (dirname first)) \/
  ((forall p, p ∈ local_paths urls -> is_mp3_file st.2 p = false) /\
   dropEvent urls st = (Ok tt, st)).
Proof.
  intros Hlen. unfold run, dropEvent.
  destruct (local_paths urls) as [|p [|p' ps]] eqn:E; simpl in Hlen; [lia|lia|].
  unfold bind, world. cbn [fst snd].
  destruct (filter (fun q => is_mp3_file st.2 q = true) (p :: p' :: ps))
    as [|first more] eqn:F.
  - right.
    assert (forall q, q ∈ p :: p' :: ps -> is_mp3_file st.2 q = false) as Hno.
    { intros q Hq. pose proof (filter_nil_none _ _ F q Hq) as H.
      simpl in H. destruct (is_mp3_file st.2 q) eqn:Eq; [|done].
      by destruct H. }
    split; [done|]. by apply load_first_mp3_none.
  - left. exists first, more. split; [done|]. split; [done|]. by destruct st.
Qed.

Lemma drop_of_several_witness :
  let dropped := [LocalFile "/n/b.mp3"; OtherUrl "https://x.org/c.mp3";
                  LocalFile "/m/a.mp3"] in
  let others := [LocalFile "/m/notes.txt"; LocalFile "/m/missing.mp3"] in
  current_folder (run (dropEvent dropped) (full_window, mixed_disk)).1 = Some "/n" /\
  current_file (run (dropEvent dropped) (full_window, mixed_disk)).1 = None /\
  dropEvent others (full_window, mixed_disk) = (Ok tt, (full_window, mixed_disk)).
Proof.
  intros dropped others.
  destruct (drop_of_several dropped (full_window, mixed_disk) ltac:(simpl; lia))
    as [(first & more & Hfirst & _ & Hfile & Hfolder) | [Hno _]].
  - destruct (drop_of_several others (full_window, mixed_disk) ltac:(simpl; lia))
      as [(f & m & Hf & _) | [_ Hsame]].
    + exfalso. vm_compute in Hf. discriminate Hf.
    + split; [|split; [exact Hfile|exact Hsame]].
      rewrite Hfolder. vm_compute in Hfirst. injection Hfirst as <- _.
      vm_compute. reflexivity.
  - exfalso. specialize (Hno "/n/b.mp3" ltac:(left)). by vm_compute in Hno.
Defined.

(** ** The requests of the lookups *)

Lemma bind_keeps_after {A B X} (f : St -> X) (m : M A) (k : A -> M B) (st : St) :
  (forall a, keeps f (k a)) -> f (bind m k st).2 = f (m st).2.
Proof.
  intros Hk. unfold bind. destruct (m st) as [[a|e] st']; [|done].
  apply Hk.
Qed.

Lemma auto_fetch_try_requests (artist title : string) (st : St) :
  requests (auto_fetch_try artist title st).2.2
    = RecordingSearch (recording_query artist title) :: requests st.2.
Proof.
  unfold auto_fetch_try.
  rewrite (bind_keeps_after (fun st => requests st.2)).
  - unfold requests_get, bind, world, modify_world, raise, ret. simpl.
    by destruct (net st.2) as [|[e|r] rest].
  - intros resp. unfold message_box, setText. keeps_auto.
Qed.

(** X18. [auto_fetch_info] makes at most one request, a recording search,
    and only for a loaded file and with both search terms non-empty:
    without a file, or with a term missing after the fallback to the file
    name, no request is made. *)
Theorem auto_fetch_requests (a : AutoTagger) (w : World) :
  requests (run auto_fetch_info (a, w)).2 = requests w \/
  exists artist title,
    can_search_recording a artist title /\
    requests (run auto_fetch_info (a, w)).2
      = RecordingSearch (recording_query artist title) :: requests w.
Proof.
  unfold run, auto_fetch_info, bind, self, lift, message_box, modify_world. simpl.
  destruct (truthy_path (current_file a)) eqn:Hc; simpl; [|by left].
  destruct (search_terms a) as [[artist title]|e] eqn:Ht; simpl; [|by left].
  destruct (Py.truthy_str artist) eqn:Ha; simpl; [|by left].
  destruct (Py.truthy_str title) eqn:Hti; simpl; [|by left].
  right. exists artist, title. split.
  - repeat split; [done..| |]; by intros ->.
  - pose proof (auto_fetch_try_requests artist title (a, w)) as H.
    unfold try_except.
    by destruct (auto_fetch_try artist title (a, w)) as [[[]|e] [a1 w1]].
Qed.


(** ** A batch that meets a file without a header *)

Lemma for_each_app {A} (l1 l2 : list A) (body : A -> M unit) (st : St) :
  for_each (l1 ++ l2) body st = (for_each l1 body ;;; for_each l2 body) st.
Proof.
  revert st. induction l1 as [|x l1 IH]; intros st; simpl; [done|].
  unfold bind. destruct (body x st) as [[[]|e] st1]; [|done]. apply IH.
Qed.

(** X20. A batch save stops at the first file without an ID3 header: the
    attribute error of its "clear tags" loop is caught nowhere and leaves
    [save_tags].  The files before it are handled as usual, that file and
    every file after it stay as they were, and the status line is not
    updated. *)
Theorem batch_stops_at_headerless (a : AutoTagger) (w : World)
    (folder : string) (names pre post : list string) (h : string)
    (l : option exn) (sv : option (Z * Z)) :
  truthy_path (current_file a) = false ->
  current_folder a = Some folder -> folder <> EmptyString ->
  version_selected a ->
  dirs w !! folder = Some names ->
  NoDup names -> Forall (fun n => Py.startswith "/" n = false) names ->
  batch_files folder names = pre ++ h :: post ->
  (forall p, p ∈ pre -> has_container w p) ->
  fs w !! h = Some (Audio None l sv) ->
  (save_tags (a, w)).1 = Raise (PyVal.no_attribute "delall") /\
  let st := run save_tags (a, w) in
  (forall p, p ∈ pre -> writable w p -> written_from a w st.2 p) /\
  (forall p, p ∉ pre -> fs st.2 !! p = fs w !! p) /\
  dialogs st.2 = rev (omap (failure_of w) pre) ++ dialogs w /\
  status_label st.1 = status_label a.
Proof.
  intros Hfile Hfolder Hne Hv Hdir Hnd Hs Hb Hc Hh.
  assert (NoDup (pre ++ h :: post)) as Hnd'
    by (rewrite <- Hb; by apply batch_files_NoDup).
  apply NoDup_app in Hnd' as (Hpre & Hdisj & _).
  destruct (batch_loop a Hv pre w Hpre Hc) as (w' & Hrun & Hout & Hwr & _ & Hd).
  assert (fs w' !! h = Some (Audio None l sv)) as Hh'.
  { rewrite Hout; [done|]. intros Hin. apply (Hdisj h Hin). by left. }
  assert (save_tags (a, w) = (Raise (PyVal.no_attribute "delall"), (a, w'))) as Hst.
  { unfold save_tags, listdir, bind, self, world, ret. simpl.
    rewrite Hfile, Hfolder. destruct folder as [|c folder]; [done|]. simpl.
    rewrite Hdir. fold (batch_files (String c folder) names). rewrite Hb.
    destruct (pre ++ h :: post) as [|f fs'] eqn:Ef; [by destruct pre|].
    rewrite <- Ef, for_each_app. unfold bind. rewrite Hrun. simpl.
    unfold bind. by rewrite (save_single_no_header a w' h l sv true Hh'). }
  unfold run. rewrite Hst. simpl. done.
Qed.

Lemma batch_stops_at_headerless_witness :
  (save_tags (batch_window, headerless_folder)).1
    = Raise (PyVal.no_attribute "delall") /\
  let st := run save_tags (batch_window, headerless_folder) in
  written_from batch_window headerless_folder st.2 "/m/1.mp3" /\
  fs st.2 !! "/m/3.mp3" = fs headerless_folder !! "/m/3.mp3" /\
  dialogs st.2 = [] /\
  status_label st.1 = StatusFolder "m".
Proof.
  set (names := ["1.mp3"; "2.mp3"; "3.mp3"]).
  assert (truthy_path (current_file batch_window) = false) as H1
    by (vm_compute; reflexivity).
  assert (current_folder batch_window = Some "/m") as H2
    by (vm_compute; reflexivity).
  assert (version_selected batch_window) as H3
    by (right; left; vm_compute; reflexivity).
  assert (dirs headerless_folder !! "/m" = Some names) as H4
    by (vm_compute; reflexivity).
  assert (NoDup names) as H5
    by (apply (bool_decide_unpack _); vm_compute; exact I).
  assert (Forall (fun n => Py.startswith "/" n = false) names) as H6
    by (repeat constructor).
  assert (batch_files "/m" names = ["/m/1.mp3"] ++ "/m/2.mp3" :: ["/m/3.mp3"]) as H7
    by (vm_compute; reflexivity).
  assert (fs headerless_folder !! "/m/1.mp3" = Some (Audio (Some commented) None None))
    as Hf1 by (vm_compute; reflexivity).
  assert (forall p, p ∈ ["/m/1.mp3"] -> has_container headerless_folder p) as H8.
  { intros p Hp. apply list_elem_of_singleton in Hp as ->.
    by exists commented, None, None. }
  assert (fs headerless_folder !! "/m/2.mp3" = Some (Audio None None None)) as H9
    by (vm_compute; reflexivity).
  destruct (batch_stops_at_headerless batch_window headerless_folder "/m" names
              ["/m/1.mp3"] ["/m/3.mp3"] "/m/2.mp3" None None
              H1 H2 ltac:(done) H3 H4 H5 H6 H7 H8 H9)
    as (Hr & Hw & Ho & Hd & Hs).
  split; [exact Hr|]. intros st. subst st.
  split; [apply Hw; [by left|by exists commented, None]|].
  split; [apply Ho; by intros ?%list_elem_of_singleton|].
  split; [rewrite Hd; vm_compute; reflexivity|].
  rewrite Hs. vm_compute; reflexivity.
Defined.

(** ** Saving a folder that was just loaded *)



